(** * Shallow embedding of the poc-open-telemetry services

    Three Python services are modelled:
    - [services/chat-service/app/main.py]: [publish_to_rabbitmq],
      [_publish_to_rabbitmq_sync], [chat_endpoint], [chat_stream];
    - [services/nlp-service/app/main.py]: [classify_endpoint];
    - [services/worker/app/main.py]: [_normalize_headers], [on_message].

    Python [str] values are lists of code points ([list Z]); [bytes] are
    lists of integers in [0, 255]. Effects (span bookkeeping, broker and
    HTTP calls, ack/nack, chunks of a stream) are recorded as events of a
    writer/state/exception monad [M]. Outcomes of calls to external
    systems (RabbitMQ, the HTTP services) are inputs of the model, given by
    an environment record per service. The spans of the OpenTelemetry
    instrumentations that run inside the modelled code (the CLIENT span of
    each [httpx] request) are modelled; log records are not. *)

From Stdlib Require Import ZArith List String Ascii Bool Lia QArith.
Import ListNotations.
Open Scope Z_scope.

(** ** Text *)

(** A Rocq string literal as a Python [str] (ASCII literals only). *)
Definition lit (s : string) : list Z :=
  map (fun a => Z.of_N (N_of_ascii a)) (list_ascii_of_string s).

Fixpoint list_Z_eqb (a b : list Z) : bool :=
  match a, b with
  | [], [] => true
  | x :: a', y :: b' => (x =? y) && list_Z_eqb a' b'
  | _, _ => false
  end.

(** Python [str] mapping used as a [dict]: assignment [d[k] = v] keeps
    the position of an existing key and appends a new one. *)
Fixpoint dict_set {V} (k : list Z) (v : V) (d : list (list Z * V))
  : list (list Z * V) :=
  match d with
  | [] => [(k, v)]
  | (k', v') :: r =>
      if list_Z_eqb k k' then (k', v) :: r else (k', v') :: dict_set k v r
  end.

Fixpoint dict_get {V} (d : list (list Z * V)) (k : list Z) : option V :=
  match d with
  | [] => None
  | (k', v) :: r => if list_Z_eqb k k' then Some v else dict_get r k
  end.

(** ** Number formatting *)

(** Decimal digits of an integer, as [int.__repr__] / [str(int)]. *)
Fixpoint uint_digits (d : Decimal.uint) : list Z :=
  match d with
  | Decimal.Nil => []
  | Decimal.D0 d => 48 :: uint_digits d
  | Decimal.D1 d => 49 :: uint_digits d
  | Decimal.D2 d => 50 :: uint_digits d
  | Decimal.D3 d => 51 :: uint_digits d
  | Decimal.D4 d => 52 :: uint_digits d
  | Decimal.D5 d => 53 :: uint_digits d
  | Decimal.D6 d => 54 :: uint_digits d
  | Decimal.D7 d => 55 :: uint_digits d
  | Decimal.D8 d => 56 :: uint_digits d
  | Decimal.D9 d => 57 :: uint_digits d
  end.

Definition z_to_dec (z : Z) : list Z :=
  match Z.to_int z with
  | Decimal.Pos u => uint_digits u
  | Decimal.Neg u => 45 :: uint_digits u
  end.

(** One lower-case hexadecimal digit ['0'-'9' 'a'-'f'] for [0 <= d < 16]. *)
Definition hexdig (d : Z) : Z := if d <? 10 then 48 + d else 87 + d.

(** The [k] lowest hexadecimal digits of [n], most significant first. *)
Fixpoint hex_fixed (k : nat) (n : Z) : list Z :=
  match k with
  | O => []
  | S k' => hex_fixed k' (n / 16) ++ [hexdig (n mod 16)]
  end.

(** Number of hexadecimal digits of [n >= 0] (one for zero). *)
Definition hex_ndigits (n : Z) : nat :=
  if n <=? 0 then 1%nat else S (Z.to_nat (Z.log2 n / 4)).

(** [format(n, "0<w>x")] for [n >= 0]: zero-padded to at least [w] digits. *)
Definition format_hex (w : nat) (n : Z) : list Z :=
  hex_fixed (Nat.max w (hex_ndigits n)) n.

(** Value of a lower-case hex digit, [None] for any other character. *)
Definition hex_value (c : Z) : option Z :=
  if (48 <=? c) && (c <=? 57) then Some (c - 48)
  else if (97 <=? c) && (c <=? 102) then Some (c - 87)
  else None.

(** [int(s, 16)] on a string of lower-case hex digits. *)
Fixpoint hex_acc (acc : Z) (s : list Z) : Z :=
  match s with
  | [] => acc
  | c :: r => hex_acc (acc * 16 + match hex_value c with Some d => d | None => 0 end) r
  end.

Definition hex_int (s : list Z) : Z := hex_acc 0 s.

(** ** UTF-8 *)

(** [str.encode("utf-8")]; [None] is the [UnicodeEncodeError] raised for
    a surrogate or an out-of-range code point. *)
Definition utf8_encode_char (c : Z) : option (list Z) :=
  if c <? 0 then None
  else if c <? 128 then Some [c]
  else if c <? 2048 then Some [192 + c / 64; 128 + c mod 64]
  else if (55296 <=? c) && (c <=? 57343) then None
  else if c <? 65536 then
    Some [224 + c / 4096; 128 + (c / 64) mod 64; 128 + c mod 64]
  else if c <? 1114112 then
    Some [240 + c / 262144; 128 + (c / 4096) mod 64;
          128 + (c / 64) mod 64; 128 + c mod 64]
  else None.

Fixpoint utf8_encode (s : list Z) : option (list Z) :=
  match s with
  | [] => Some []
  | c :: r =>
      match utf8_encode_char c, utf8_encode r with
      | Some b, Some br => Some (b ++ br)
      | _, _ => None
      end
  end.

(** Error handlers of [bytes.decode]. *)
Inductive decode_errors := Strict_ | Ignore_ | SurrogatePass_.

Definition in_range (lo hi b : Z) : bool := (lo <=? b) && (b <=? hi).

(** One decoding step of CPython's UTF-8 decoder: [inl (cp, n)] decodes
    the code point [cp] from the first [n] bytes; [inr n] is an invalid
    sequence whose maximal valid prefix has [n] bytes (the span an error
    handler skips). *)
Definition utf8_step (bs : list Z) : Z * nat + nat :=
  match bs with
  | [] => inr 1%nat
  | b0 :: r =>
    if b0 <? 128 then inl (b0, 1%nat)
    else if in_range 194 223 b0 then
      match r with
      | b1 :: _ => if in_range 128 191 b1
                   then inl ((b0 - 192) * 64 + (b1 - 128), 2%nat) else inr 1%nat
      | [] => inr 1%nat
      end
    else if in_range 224 239 b0 then
      let lo1 := if b0 =? 224 then 160 else 128 in
      let hi1 := if b0 =? 237 then 159 else 191 in
      match r with
      | b1 :: r1 =>
        if in_range lo1 hi1 b1 then
          match r1 with
          | b2 :: _ => if in_range 128 191 b2
              then inl ((b0 - 224) * 4096 + (b1 - 128) * 64 + (b2 - 128), 3%nat)
              else inr 2%nat
          | [] => inr 2%nat
          end
        else inr 1%nat
      | [] => inr 1%nat
      end
    else if in_range 240 244 b0 then
      let lo1 := if b0 =? 240 then 144 else 128 in
      let hi1 := if b0 =? 244 then 143 else 191 in
      match r with
      | b1 :: r1 =>
        if in_range lo1 hi1 b1 then
          match r1 with
          | b2 :: r2 =>
            if in_range 128 191 b2 then
              match r2 with
              | b3 :: _ => if in_range 128 191 b3
                  then inl ((b0 - 240) * 262144 + (b1 - 128) * 4096
                            + (b2 - 128) * 64 + (b3 - 128), 4%nat)
                  else inr 3%nat
              | [] => inr 3%nat
              end
            else inr 2%nat
          | [] => inr 2%nat
          end
        else inr 1%nat
      | [] => inr 1%nat
      end
    else inr 1%nat
  end.

(** The [surrogatepass] handler accepts an encoded surrogate [ED A0..BF xx]. *)
Definition surrogate_bytes (bs : list Z) : option Z :=
  match bs with
  | 237 :: b1 :: b2 :: _ =>
      if in_range 160 191 b1 && in_range 128 191 b2
      then Some (53248 + (b1 - 128) * 64 + (b2 - 128)) else None
  | _ => None
  end.

Fixpoint utf8_decode_fuel (fuel : nat) (errors : decode_errors) (bs : list Z)
  : option (list Z) :=
  match fuel with
  | O => None
  | S f =>
    match bs with
    | [] => Some []
    | _ =>
      match utf8_step bs with
      | inl (c, n) => option_map (cons c) (utf8_decode_fuel f errors (skipn n bs))
      | inr n =>
        match errors with
        | Strict_ => None
        | Ignore_ => utf8_decode_fuel f errors (skipn n bs)
        | SurrogatePass_ =>
          match surrogate_bytes bs with
          | Some c => option_map (cons c) (utf8_decode_fuel f errors (skipn 3 bs))
          | None => None
          end
        end
      end
    end
  end.

(** [bytes.decode("utf-8", errors)]; [None] is [UnicodeDecodeError]. *)
Definition utf8_decode (errors : decode_errors) (bs : list Z) : option (list Z) :=
  utf8_decode_fuel (S (List.length bs)) errors bs.

(** ** UTF-16 and UTF-32, for [json.loads] on [bytes] *)

Fixpoint utf16_units (be : bool) (bs : list Z) : option (list Z) :=
  match bs with
  | [] => Some []
  | a :: b :: r =>
      option_map (cons (if be then a * 256 + b else b * 256 + a)) (utf16_units be r)
  | [_] => None
  end.

(** Surrogate pairs are joined; a lone surrogate is kept ([surrogatepass]). *)
Fixpoint utf16_join (us : list Z) : list Z :=
  match us with
  | u1 :: ((u2 :: r2) as r) =>
      if in_range 55296 56319 u1 && in_range 56320 57343 u2
      then (65536 + (u1 - 55296) * 1024 + (u2 - 56320)) :: utf16_join r2
      else u1 :: utf16_join r
  | [u] => [u]
  | [] => []
  end.

Fixpoint utf32_units (be : bool) (bs : list Z) : option (list Z) :=
  match bs with
  | [] => Some []
  | a :: b :: c :: d :: r =>
      let u := if be then ((a * 256 + b) * 256 + c) * 256 + d
               else ((d * 256 + c) * 256 + b) * 256 + a in
      if 1114111 <? u then None else option_map (cons u) (utf32_units be r)
  | _ => None
  end.

Inductive json_encoding :=
  Utf32 | Utf16 | Utf8Sig | Utf16Be | Utf16Le | Utf32Be | Utf32Le | Utf8.

(** [json.detect_encoding]. *)
Definition detect_encoding (b : list Z) : json_encoding :=
  match b with
  | 0 :: 0 :: 254 :: 255 :: _ | 255 :: 254 :: 0 :: 0 :: _ => Utf32
  | 254 :: 255 :: _ | 255 :: 254 :: _ => Utf16
  | 239 :: 187 :: 191 :: _ => Utf8Sig
  | b0 :: b1 :: b2 :: b3 :: _ =>
      if b0 =? 0 then (if b1 =? 0 then Utf32Be else Utf16Be)
      else if b1 =? 0 then
        (if negb (b2 =? 0) || negb (b3 =? 0) then Utf16Le else Utf32Le)
      else Utf8
  | [b0; b1] =>
      if b0 =? 0 then Utf16Be else if b1 =? 0 then Utf16Le else Utf8
  | _ => Utf8
  end.

(** [b.decode(detect_encoding(b), "surrogatepass")]. *)
Definition json_bytes_text (b : list Z) : option (list Z) :=
  match detect_encoding b with
  | Utf32 =>
      match b with
      | 0 :: 0 :: 254 :: 255 :: r => utf32_units true r
      | _ :: _ :: _ :: _ :: r => utf32_units false r
      | _ => None
      end
  | Utf16 =>
      match b with
      | 254 :: 255 :: r => option_map utf16_join (utf16_units true r)
      | _ :: _ :: r => option_map utf16_join (utf16_units false r)
      | _ => None
      end
  | Utf8Sig => utf8_decode SurrogatePass_ (skipn 3 b)
  | Utf16Be => option_map utf16_join (utf16_units true b)
  | Utf16Le => option_map utf16_join (utf16_units false b)
  | Utf32Be => utf32_units true b
  | Utf32Le => utf32_units false b
  | Utf8 => utf8_decode SurrogatePass_ b
  end.

(** ** Python values and exceptions *)

#[local] Set Warnings "-register-all".

(** A Python [float]: a finite double is kept as its exact rational
    value. *)
Inductive pyfloat := FFinite (q : Q) | FInf (neg : bool) | FNaN.

(** The Python values the services handle: JSON values, [bytes], and
    dicts with [str] keys. *)
Inductive PyVal :=
| PNone
| PBool (b : bool)
| PInt (z : Z)
| PFloat (f : pyfloat)
| PStr (s : list Z)
| PBytes (b : list Z)
| PList (l : list PyVal)
| PDict (d : list (list Z * PyVal)).

(** Subclasses of [httpx.HTTPError]. *)
Inductive HttpxErr :=
| HTTPStatusError (status : Z)
| TimeoutException
| ConnectError
| ReadError
| RemoteProtocolError
| DecodingError
| TooManyRedirects.

(** Exceptions raised by external systems: [httpx] errors, [pika]
    (AMQP) errors, any other [Exception], and [BaseException]s that are
    not [Exception]s ([KeyboardInterrupt], [SystemExit],
    [asyncio.CancelledError]). *)
Inductive ExtExc :=
| XHttpx (e : HttpxErr)
| XPika (name : string)
| XOther (name : string)
| XBase (name : string).

Inductive Exc :=
| EExt (x : ExtExc)
| EValueError (name : string)     (* ValueError and its subclasses
                                     JSONDecodeError, UnicodeDecodeError,
                                     UnicodeEncodeError *)
| ETypeError
| EAttributeError
| EOverflowError
| EHTTPException (status : Z) (detail : list Z).  (* fastapi.HTTPException *)

(** [isinstance(e, Exception)]. *)
Definition is_Exception (e : Exc) : bool :=
  match e with EExt (XBase _) => false | _ => true end.

(** [isinstance(e, httpx.HTTPError)]. *)
Definition is_HTTPError (e : Exc) : bool :=
  match e with EExt (XHttpx _) => true | _ => false end.

Inductive res (A : Type) := Ok (a : A) | Raise (e : Exc).
Arguments Ok {A} a.
Arguments Raise {A} e.

Definition rbind {A B} (r : res A) (k : A -> res B) : res B :=
  match r with Ok a => k a | Raise e => Raise e end.

Definition of_option {A} (o : option A) (e : Exc) : res A :=
  match o with Some a => Ok a | None => Raise e end.

(** ** [json.loads] *)

Definition is_json_ws (c : Z) : bool :=
  (c =? 32) || (c =? 9) || (c =? 10) || (c =? 13).

Fixpoint skip_ws (s : list Z) : list Z :=
  match s with
  | c :: r => if is_json_ws c then skip_ws r else s
  | [] => []
  end.

(** Hex digit of a [\uXXXX] escape (either case). *)
Definition hex_any (c : Z) : option Z :=
  if in_range 48 57 c then Some (c - 48)
  else if in_range 97 102 c then Some (c - 87)
  else if in_range 65 70 c then Some (c - 55)
  else None.

Definition hex4 (a b c d : Z) : option Z :=
  match hex_any a, hex_any b, hex_any c, hex_any d with
  | Some a, Some b, Some c, Some d => Some (((a * 16 + b) * 16 + c) * 16 + d)
  | _, _, _, _ => None
  end.

Definition simple_escape (e : Z) : option Z :=
  if (e =? 34) || (e =? 92) || (e =? 47) then Some e
  else if e =? 98 then Some 8
  else if e =? 102 then Some 12
  else if e =? 110 then Some 10
  else if e =? 114 then Some 13
  else if e =? 116 then Some 9
  else None.

(** [scanstring] (strict): the body of a string literal after its opening
    quote; returns the decoded string and the input after the closing
    quote. *)
Fixpoint scan_string (s : list Z) (acc : list Z) {struct s}
  : option (list Z * list Z) :=
  match s with
  | [] => None
  | 34 :: r => Some (rev acc, r)
  | 92 :: r =>
    match r with
    | 117 :: a :: b :: c :: d :: rest =>
      match hex4 a b c d with
      | None => None
      | Some u =>
        if in_range 55296 56319 u then
          match rest with
          | 92 :: 117 :: e :: f :: g :: h :: rest2 =>
            match hex4 e f g h with
            | None => None
            | Some u2 =>
              if in_range 56320 57343 u2
              then scan_string rest2
                     ((65536 + (u - 55296) * 1024 + (u2 - 56320)) :: acc)
              else scan_string rest (u :: acc)
            end
          | _ => scan_string rest (u :: acc)
          end
        else scan_string rest (u :: acc)
      end
    | e :: rest =>
      match simple_escape e with
      | Some c => scan_string rest (c :: acc)
      | None => None
      end
    | [] => None
    end
  | c :: r => if c <? 32 then None else scan_string r (c :: acc)
  end.

Fixpoint take_digits (s : list Z) : list Z * list Z :=
  match s with
  | c :: r =>
      if in_range 48 57 c then let '(d, r') := take_digits r in (c :: d, r')
      else ([], s)
  | [] => ([], [])
  end.

Definition digits_value (ds : list Z) : Z :=
  fold_left (fun acc c => acc * 10 + (c - 48)) ds 0.

(** [num / den] rounded to the nearest integer, ties to even
    ([0 <= num], [0 < den]). *)
Definition round_half_even (num den : Z) : Z :=
  let q := num / den in
  match Z.compare (2 * (num mod den)) den with
  | Lt => q
  | Gt => q + 1
  | Eq => if Z.even q then q else q + 1
  end.

(** The IEEE 754 double nearest to [a / b] ([0 <= a], [0 < b]), ties to
    even: 53 significant bits, exponents down to the subnormal step
    [2^-1074]; a result of [2^1024] or more is [inf]. Finite doubles are
    kept as their exact rational value. *)
Definition double_of_ratio (a b : Z) : pyfloat :=
  if a =? 0 then FFinite 0 else
  let k := Z.log2 a - Z.log2 b in
  let lg := if (if 0 <=? k then b * 2 ^ k <=? a else b <=? a * 2 ^ (- k))
            then k else k - 1 in
  let ex := Z.max (lg - 52) (-1074) in
  let sig := if 0 <=? ex then round_half_even a (b * 2 ^ ex)
             else round_half_even (a * 2 ^ (- ex)) b in
  if 0 <=? ex then
    if 2 ^ 1024 <=? sig * 2 ^ ex then FInf false else FFinite (inject_Z (sig * 2 ^ ex))
  else FFinite (Qred (Qmake sig (Z.to_pos (2 ^ (- ex))))).

(** [float(s)] on the decimal [(-1)^neg * m * 10^e] ([0 <= m]), as
    [json] does for a number with a fraction or an exponent: correctly
    rounded, [-inf] on negative overflow ([-0.0] is kept as [0]). *)
Definition float_of_decimal (neg : bool) (m e : Z) : pyfloat :=
  match double_of_ratio (m * 10 ^ Z.max e 0) (10 ^ Z.max (- e) 0) with
  | FFinite q => FFinite (if neg then Qopp q else q)
  | FInf _ => FInf neg
  | FNaN => FNaN
  end.

(** [NUMBER_RE = (-?(?:0|[1-9]\d* ))(\.\d+)?([eE][-+]?\d+)?]: an [int]
    without fraction and exponent, a [float] otherwise. *)
Definition scan_number (s : list Z) : option (PyVal * list Z) :=
  let '(neg, s1) := match s with 45 :: r => (true, r) | _ => (false, s) end in
  let ip := match s1 with
            | 48 :: r => Some ([48], r)
            | c :: r =>
                if in_range 49 57 c
                then let '(d, r') := take_digits r in Some (c :: d, r')
                else None
            | [] => None
            end in
  match ip with
  | None => None
  | Some (idigits, r1) =>
    let '(fdigits, r2) :=
      match r1 with
      | 46 :: r =>
          match take_digits r with
          | ((_ :: _) as d, r') => (Some d, r')
          | _ => (None, r1)
          end
      | _ => (None, r1)
      end in
    let '(exp, r3) :=
      match r2 with
      | e :: r =>
          if (e =? 101) || (e =? 69) then
            let '(esign, r') :=
              match r with 43 :: t => (1, t) | 45 :: t => (-1, t) | _ => (1, r) end in
            match take_digits r' with
            | ((_ :: _) as d, r'') => (Some (esign * digits_value d), r'')
            | _ => (None, r2)
            end
          else (None, r2)
      | [] => (None, r2)
      end in
    let sgn := if neg then -1 else 1 in
    match fdigits, exp with
    | None, None => Some (PInt (sgn * digits_value idigits), r3)
    | _, _ =>
      let fd := match fdigits with Some d => d | None => [] end in
      let e := match exp with Some e => e | None => 0 end - Z.of_nat (List.length fd) in
      Some (PFloat (float_of_decimal neg (digits_value (idigits ++ fd)) e), r3)
    end
  end.

Definition dict_of_pairs (kvs : list (list Z * PyVal)) : list (list Z * PyVal) :=
  fold_left (fun d '(k, v) => dict_set k v d) kvs [].

(** [scan_once]: one JSON value at the head of the input (no leading
    whitespace); arrays and objects through [scan_elems] and
    [scan_members]. *)
Fixpoint scan_value (fuel : nat) (s : list Z) {struct fuel}
  : option (PyVal * list Z) :=
  match fuel with
  | O => None
  | S f =>
    match s with
    | 34 :: r => option_map (fun p => (PStr (fst p), snd p)) (scan_string r [])
    | 123 :: r =>
        match skip_ws r with
        | 125 :: r' => Some (PDict [], r')
        | r0 => scan_members f r0 []
        end
    | 91 :: r =>
        match skip_ws r with
        | 93 :: r' => Some (PList [], r')
        | r0 => scan_elems f r0 []
        end
    | 110 :: 117 :: 108 :: 108 :: r => Some (PNone, r)
    | 116 :: 114 :: 117 :: 101 :: r => Some (PBool true, r)
    | 102 :: 97 :: 108 :: 115 :: 101 :: r => Some (PBool false, r)
    | 78 :: 97 :: 78 :: r => Some (PFloat FNaN, r)
    | 73 :: 110 :: 102 :: 105 :: 110 :: 105 :: 116 :: 121 :: r =>
        Some (PFloat (FInf false), r)
    | 45 :: 73 :: 110 :: 102 :: 105 :: 110 :: 105 :: 116 :: 121 :: r =>
        Some (PFloat (FInf true), r)
    | _ => scan_number s
    end
  end
with scan_elems (fuel : nat) (s : list Z) (acc : list PyVal) {struct fuel}
  : option (PyVal * list Z) :=
  match fuel with
  | O => None
  | S f =>
    match scan_value f s with
    | None => None
    | Some (v, r) =>
      match skip_ws r with
      | 93 :: r' => Some (PList (rev (v :: acc)), r')
      | 44 :: r' => scan_elems f (skip_ws r') (v :: acc)
      | _ => None
      end
    end
  end
with scan_members (fuel : nat) (s : list Z) (acc : list (list Z * PyVal))
  {struct fuel} : option (PyVal * list Z) :=
  match fuel with
  | O => None
  | S f =>
    match s with
    | 34 :: r =>
      match scan_string r [] with
      | None => None
      | Some (k, r1) =>
        match skip_ws r1 with
        | 58 :: r2 =>
          match scan_value f (skip_ws r2) with
          | None => None
          | Some (v, r3) =>
            match skip_ws r3 with
            | 125 :: r4 => Some (PDict (dict_of_pairs (rev ((k, v) :: acc))), r4)
            | 44 :: r4 => scan_members f (skip_ws r4) ((k, v) :: acc)
            | _ => None
            end
          end
        | _ => None
        end
      end
    | _ => None
    end
  end.

Definition JSONDecodeError : Exc := EValueError "JSONDecodeError".
Definition UnicodeDecodeError : Exc := EValueError "UnicodeDecodeError".
Definition UnicodeEncodeError : Exc := EValueError "UnicodeEncodeError".

(** [JSONDecoder.decode]: one value surrounded by whitespace. *)
Definition json_decode (s : list Z) : res PyVal :=
  match scan_value (S (List.length s)) (skip_ws s) with
  | Some (v, r) => match skip_ws r with [] => Ok v | _ => Raise JSONDecodeError end
  | None => Raise JSONDecodeError
  end.

(** [json.loads] on a [str]. *)
Definition json_loads (s : list Z) : res PyVal :=
  match s with
  | 65279 :: _ => Raise JSONDecodeError
  | _ => json_decode s
  end.

(** [json.loads] on [bytes]; this is [httpx.Response.json()], which
    passes [response.content] to it. *)
Definition json_loads_bytes (b : list Z) : res PyVal :=
  match json_bytes_text b with
  | Some s => json_decode s
  | None => Raise UnicodeDecodeError
  end.

(** ** Trace context (OpenTelemetry W3C [tracecontext] propagator) *)

Inductive SpanKind := INTERNAL | SERVER | CLIENT | PRODUCER | CONSUMER.

Record SpanContext := mkCtx {
  trace_id : Z;
  span_id : Z;
  trace_flags : Z
}.

(** [SpanContext.is_valid]. *)
Definition span_is_valid (c : SpanContext) : bool :=
  (0 <? trace_id c) && (trace_id c <? 2 ^ 128)
  && (0 <? span_id c) && (span_id c <? 2 ^ 64).

(** [f"00-{format_trace_id(t)}-{format_span_id(s)}-{flags:02x}"]. *)
Definition traceparent_of (c : SpanContext) : list Z :=
  lit "00" ++ [45] ++ format_hex 32 (trace_id c) ++ [45]
  ++ format_hex 16 (span_id c) ++ [45] ++ format_hex 2 (trace_flags c).

(** [TraceContextTextMapPropagator.inject] into an empty carrier: nothing
    is written when no span is current ([None]). *)
Definition inject_carrier (c : option SpanContext) : list (list Z * list Z) :=
  match c with
  | Some p => [(lit "traceparent", traceparent_of p)]
  | None => []
  end.

Definition is_sp_tab (c : Z) : bool := (c =? 32) || (c =? 9).

Fixpoint drop_sp_tab (s : list Z) : list Z :=
  match s with
  | c :: r => if is_sp_tab c then drop_sp_tab r else s
  | [] => []
  end.

(** [[0-9a-f]{k}] at the head of the input. *)
Fixpoint take_lower_hex (k : nat) (s : list Z) : option (list Z * list Z) :=
  match k with
  | O => Some ([], s)
  | S k' =>
    match s with
    | c :: r =>
      match hex_value c, take_lower_hex k' r with
      | Some _, Some (h, r') => Some (c :: h, r')
      | _, _ => None
      end
    | [] => None
    end
  end.

Definition strip_final_newline (s : list Z) : list Z :=
  match rev s with 10 :: r => rev r | _ => s end.

(** The end of the pattern, [(-.* )?[ \t]*$]: [Some (Some g5)] when
    group 5 matched, [Some None] when it did not, [None] when the pattern
    fails. ['.'] does not match a newline; ['$'] also matches before a
    final newline. *)
Definition traceparent_tail (r : list Z) : option (option (list Z)) :=
  match r with
  | 45 :: x =>
      let x' := strip_final_newline x in
      if existsb (Z.eqb 10) x' then None else Some (Some (45 :: x'))
  | _ => if forallb is_sp_tab (strip_final_newline r) then Some None else None
  end.

(** [re.search] with
    [^[ \t]*([0-9a-f]{2})-([0-9a-f]{32})-([0-9a-f]{16})-([0-9a-f]{2})(-.* )?[ \t]*$]. *)
Definition match_traceparent (s : list Z)
  : option (list Z * list Z * list Z * list Z * option (list Z)) :=
  match take_lower_hex 2 (drop_sp_tab s) with
  | Some (ver, 45 :: r1) =>
    match take_lower_hex 32 r1 with
    | Some (tid, 45 :: r2) =>
      match take_lower_hex 16 r2 with
      | Some (sid, 45 :: r3) =>
        match take_lower_hex 2 r3 with
        | Some (fl, r4) =>
          match traceparent_tail r4 with
          | Some g5 => Some (ver, tid, sid, fl, g5)
          | None => None
          end
        | None => None
        end
      | _ => None
      end
    | _ => None
    end
  | _ => None
  end.

(** [TraceContextTextMapPropagator.extract] on a [dict[str, str]]
    carrier: the remote parent span context, or [None] for the empty
    context ("no parent"). *)
Definition extract (carrier : list (list Z * list Z)) : option SpanContext :=
  match dict_get carrier (lit "traceparent") with
  | None => None
  | Some header =>
    match match_traceparent header with
    | None => None
    | Some (ver, tid, sid, fl, g5) =>
      if list_Z_eqb tid (repeat 48 32) || list_Z_eqb sid (repeat 48 16) then None
      else if list_Z_eqb ver (lit "00") && match g5 with Some _ => true | None => false end
      then None
      else if list_Z_eqb ver (lit "ff") then None
      else Some (mkCtx (hex_int tid) (hex_int sid) (hex_int fl))
    end
  end.

(** ** Effects *)

Record BasicProperties := mkProps {
  content_type : list Z;
  delivery_mode : Z;
  bp_headers : list (list Z * list Z)
}.

Inductive Event :=
| EvSpanStart (name : string) (kind : SpanKind) (ctx : SpanContext)
| EvSpanEnd (ctx : SpanContext)
| EvConnect (host : list Z)
| EvChannelOpen
| EvQueueDeclare (queue : list Z) (durable : bool)
| EvBasicPublish (exchange routing_key body : list Z) (props : BasicProperties)
| EvChannelClose
| EvConnectionClose
| EvHttpPost (base_url path : list Z) (json : PyVal)
| EvAck (delivery_tag : Z)
| EvNack (delivery_tag : Z) (requeue : bool)
| EvYield (chunk : list Z)
| EvSleep (seconds : Q).

(** Execution state: the current span (the [contextvars] context) and the
    number of spans started so far. *)
Record St := mkSt { cur : option SpanContext; nid : nat }.

(** Writer/state/exception monad. *)
Definition M (A : Type) := St -> res A * St * list Event.

Definition ret {A} (a : A) : M A := fun s => (Ok a, s, []).

Definition bind {A B} (m : M A) (k : A -> M B) : M B :=
  fun s =>
    match m s with
    | (Ok a, s1, w1) => let '(r, s2, w2) := k a s1 in (r, s2, w1 ++ w2)
    | (Raise e, s1, w1) => (Raise e, s1, w1)
    end.

Notation "x <- m ;; k" := (bind m (fun x => k))
  (at level 61, m at next level, right associativity).
Notation "m ;; k" := (bind m (fun _ => k)) (at level 61, right associativity).

Definition raise {A} (e : Exc) : M A := fun s => (Raise e, s, []).

Definition emit (ev : Event) : M unit := fun s => (Ok tt, s, [ev]).

Definition lift {A} (r : res A) : M A := fun s => (r, s, []).

(** [try: m except <catches> as e: h(e)]. *)
Definition try_except {A} (m : M A) (catches : Exc -> bool) (h : Exc -> M A) : M A :=
  fun s =>
    match m s with
    | (Raise e, s1, w1) =>
        if catches e then let '(r, s2, w2) := h e s1 in (r, s2, w1 ++ w2)
        else (Raise e, s1, w1)
    | o => o
    end.

(** [try: m finally: fin]: an exception of [fin] replaces that of [m]. *)
Definition try_finally {A} (m : M A) (fin : M unit) : M A :=
  fun s =>
    let '(r, s1, w1) := m s in
    let '(rf, s2, w2) := fin s1 in
    (match rf with Raise e => Raise e | Ok _ => r end, s2, w1 ++ w2).

Definition get_current : M (option SpanContext) := fun s => (Ok (cur s), s, []).

(** ** External calls *)

Record Response := mkResponse { status_code : Z; content : list Z }.

(** Outcome of an HTTP request: a response, or an exception raised by the
    client (transport errors and timeouts are [XHttpx] errors). *)
Inductive HttpOutcome := HResp (r : Response) | HFail (x : ExtExc).

Definition http_send (o : HttpOutcome) : M Response :=
  match o with HResp r => ret r | HFail x => raise (EExt x) end.

(** [Response.raise_for_status()]: every status outside [200, 300). *)
Definition raise_for_status (r : Response) : M unit :=
  if (200 <=? status_code r) && (status_code r <? 300) then ret tt
  else raise (EExt (XHttpx (HTTPStatusError (status_code r)))).

(** [Response.json()]. *)
Definition response_json (r : Response) : M PyVal := lift (json_loads_bytes (content r)).

Inductive PikaOp :=
  OpConnect | OpChannel | OpQueueDeclare | OpBasicPublish
| OpChannelClose | OpConnectionClose.

(** ** Python builtins *)

(** [Py_UNICODE_ISSPACE]: the Unicode white space characters. *)
Definition is_py_space (c : Z) : bool :=
  in_range 9 13 c || in_range 28 32 c || (c =? 133) || (c =? 160)
  || (c =? 5760) || in_range 8192 8202 c || (c =? 8232) || (c =? 8233)
  || (c =? 8239) || (c =? 8287) || (c =? 12288).

(** [Py_ISSPACE]: the ASCII white space skipped by [PyLong_FromString]. *)
Definition is_ascii_space (c : Z) : bool := in_range 9 13 c || (c =? 32).

Fixpoint drop_ascii_space (s : list Z) : list Z :=
  match s with
  | c :: r => if is_ascii_space c then drop_ascii_space r else s
  | [] => []
  end.

(** Decimal digits with single underscores between digits. *)
Fixpoint dec_underscore (s : list Z) (acc : Z) (prev_digit : bool) : option Z :=
  match s with
  | [] => if prev_digit then Some acc else None
  | c :: r =>
      if in_range 48 57 c then dec_underscore r (acc * 10 + (c - 48)) true
      else if (c =? 95) && prev_digit then dec_underscore r acc false
      else None
  end.

(** [PyLong_FromString(s, base=10)] on an ASCII buffer, read to its end:
    white space, a sign, digits with single underscores, white space;
    [None] is the [ValueError]. *)
Definition long_from_ascii (s : list Z) : option Z :=
  match rev (drop_ascii_space (rev (drop_ascii_space s))) with
  | 43 :: r => dec_underscore r 0 false
  | 45 :: r => option_map Z.opp (dec_underscore r 0 false)
  | t => dec_underscore t 0 false
  end.

(** The code points of digit zero of the Unicode decimal digits (general
    category Nd) above ASCII, Unicode 15; digit [d] of each script is
    [zero + d]. *)
Definition decimal_zeros : list Z :=
  [1632; 1776; 1984; 2406; 2534; 2662; 2790; 2918; 3046; 3174; 3302; 3430;
   3558; 3664; 3792; 3872; 4160; 4240; 6112; 6160; 6470; 6608; 6784; 6800;
   6992; 7088; 7232; 7248; 42528; 43216; 43264; 43472; 43504; 43600; 44016;
   65296; 66720; 68912; 69734; 69872; 69942; 70096; 70384; 70736; 70864;
   71248; 71360; 71472; 71904; 72016; 72784; 73040; 73120; 73552; 92768;
   92864; 93008; 120782; 120792; 120802; 120812; 120822; 123200; 123632;
   124144; 125264; 130032].

(** [Py_UNICODE_TODECIMAL]. *)
Definition py_todecimal (c : Z) : option Z :=
  match find (fun z => (z <=? c) && (c <=? z + 9)) decimal_zeros with
  | Some z => Some (c - z)
  | None => None
  end.

(** [_PyUnicode_TransformDecimalAndSpaceToASCII]: characters below 127
    are kept, other white space becomes a space and other decimal digits
    their ASCII digit; any other character is replaced by [?] and ends the
    buffer. *)
Fixpoint transform_decimal_space (s : list Z) : list Z :=
  match s with
  | [] => []
  | c :: r =>
      if c <? 127 then c :: transform_decimal_space r
      else if is_py_space c then 32 :: transform_decimal_space r
      else match py_todecimal c with
           | Some d => (48 + d) :: transform_decimal_space r
           | None => [63]
           end
  end.

(** [int(s)] for a [str] ([PyLong_FromUnicodeObject]); [None] is the
    [ValueError]. *)
Definition int_of_str (s : list Z) : option Z :=
  long_from_ascii (transform_decimal_space s).

(** [int(v)]. *)
Definition py_int (v : PyVal) : res Z :=
  match v with
  | PInt z => Ok z
  | PBool b => Ok (if b then 1 else 0)
  | PFloat (FFinite q) => Ok (Z.quot (Qnum q) (Zpos (Qden q)))
  | PFloat FNaN => Raise (EValueError "ValueError")
  | PFloat (FInf _) => Raise EOverflowError
  | PStr s => of_option (int_of_str s) (EValueError "ValueError")
  | PBytes s => of_option (long_from_ascii s) (EValueError "ValueError")
  | PNone | PList _ | PDict _ => Raise ETypeError
  end.

(** [v.get(k, default)]: only dicts have a [get] method. *)
Definition py_get (v : PyVal) (k : list Z) (default : PyVal) : res PyVal :=
  match v with
  | PDict d => Ok (match dict_get d k with Some x => x | None => default end)
  | _ => Raise EAttributeError
  end.

(** [len(v)]. *)
Definition py_len (v : PyVal) : res Z :=
  match v with
  | PStr s | PBytes s => Ok (Z.of_nat (List.length s))
  | PList l => Ok (Z.of_nat (List.length l))
  | PDict d => Ok (Z.of_nat (List.length d))
  | _ => Raise ETypeError
  end.

(** [json.dumps] escaping of a [str] with [ensure_ascii=True]. *)
Definition json_escape_char (c : Z) : list Z :=
  if c =? 34 then [92; 34]
  else if c =? 92 then [92; 92]
  else if c =? 10 then [92; 110]
  else if c =? 13 then [92; 114]
  else if c =? 9 then [92; 116]
  else if c =? 8 then [92; 98]
  else if c =? 12 then [92; 102]
  else if in_range 32 126 c then [c]
  else if c <? 65536 then 92 :: 117 :: hex_fixed 4 c
  else let c' := c - 65536 in
       92 :: 117 :: hex_fixed 4 (55296 + c' / 1024)
       ++ 92 :: 117 :: hex_fixed 4 (56320 + c' mod 1024).

Definition json_str (s : list Z) : list Z := 34 :: flat_map json_escape_char s ++ [34].

Fixpoint join (sep : list Z) (xs : list (list Z)) : list Z :=
  match xs with
  | [] => []
  | [x] => x
  | x :: r => x ++ sep ++ join sep r
  end.

(** Environment of the chat service: configuration and the outcomes of its
    calls to RabbitMQ and to the classification service. *)
Record ChatEnv := mkChatEnv {
  rabbitmq_host : list Z;        (* RABBITMQ_HOST, default "localhost" *)
  rabbitmq_queue : list Z;       (* RABBITMQ_QUEUE, default "chat-jobs" *)
  nlp_service_url : list Z;      (* NLP_SERVICE_URL, default "http://localhost:8001" *)
  pika_fail : PikaOp -> option ExtExc;     (* exception raised by a pika call *)
  classify_post : PyVal -> HttpOutcome     (* POST /classify with this JSON *)
}.

(** Environment of the classification service. *)
Record NlpEnv := mkNlpEnv {
  dotnet_service_url : list Z;   (* DOTNET_SERVICE_URL, default "http://localhost:8080" *)
  analyze_post : PyVal -> HttpOutcome      (* POST /analyze with this JSON *)
}.

(** Environment of the worker: configuration, the analyze endpoint, and
    the exceptions (if any) raised by [basic_ack] and [basic_nack]. *)
Record WorkerEnv := mkWorkerEnv {
  queue_name : list Z;           (* RABBITMQ_QUEUE *)
  dotnet_url : list Z;           (* DOTNET_SERVICE_URL *)
  worker_analyze_post : PyVal -> HttpOutcome;
  ack_fail : option ExtExc;
  nack_fail : option ExtExc
}.

(** What the ASGI server sends back for an endpoint's result: the returned
    value with status 200, the status and [{"detail": ...}] of an
    [HTTPException], or an unhandled exception (500). *)
Inductive HttpReply := Reply (status : Z) (body : PyVal) | Unhandled (e : Exc).

Definition fastapi_reply (r : res PyVal) : HttpReply :=
  match r with
  | Ok v => Reply 200 v
  | Raise (EHTTPException st d) => Reply st (PDict [(lit "detail", PStr d)])
  | Raise e => Unhandled e
  end.

(** pika's header table on the wire: a [str] key is a UTF-8 short string
    (at most 255 bytes), a [str] value a UTF-8 long string; on delivery
    each is decoded back to [str] when it is valid UTF-8 and left as
    [bytes] otherwise. [None]: the table cannot be encoded. *)
Definition amqp_wire_str (max_len : option nat) (s : list Z) : option PyVal :=
  match utf8_encode s with
  | None => None
  | Some b =>
      if match max_len with Some m => Nat.ltb m (List.length b) | None => false end
      then None
      else Some (match utf8_decode Strict_ b with Some s' => PStr s' | None => PBytes b end)
  end.

Fixpoint amqp_deliver (h : list (list Z * list Z)) : option (list (PyVal * PyVal)) :=
  match h with
  | [] => Some []
  | (k, v) :: r =>
      match amqp_wire_str (Some 255%nat) k, amqp_wire_str None v, amqp_deliver r with
      | Some k', Some v', Some r' => Some ((k', v') :: r')
      | _, _, _ => None
      end
  end.

Section Runtime.

(** [repr()] of the values whose text form is not modelled: finite
    [float]s, [bytes], lists and dicts. *)
Variable py_repr : PyVal -> list Z.

(** The SDK's id generator together with the sampler: trace id, span id
    and sampling decision drawn for the n-th span of a process. *)
Variable idgen : nat -> Z * Z * bool.

(** [str(v)]. *)
Definition py_str (v : PyVal) : list Z :=
  match v with
  | PStr s => s
  | PInt z => z_to_dec z
  | PBool true => lit "True"
  | PBool false => lit "False"
  | PNone => lit "None"
  | _ => py_repr v
  end.

(** [json]'s [floatstr] with [allow_nan=True]. *)
Definition float_str (f : pyfloat) : list Z :=
  match f with
  | FNaN => lit "NaN"
  | FInf false => lit "Infinity"
  | FInf true => lit "-Infinity"
  | FFinite _ => py_repr (PFloat f)
  end.

(** [json.dumps(v)] with the default separators and [ensure_ascii=True]. *)
Fixpoint json_dumps (v : PyVal) : res (list Z) :=
  match v with
  | PNone => Ok (lit "null")
  | PBool true => Ok (lit "true")
  | PBool false => Ok (lit "false")
  | PInt z => Ok (z_to_dec z)
  | PFloat f => Ok (float_str f)
  | PStr s => Ok (json_str s)
  | PBytes _ => Raise ETypeError
  | PList l =>
      let fix items (l : list PyVal) : res (list (list Z)) :=
        match l with
        | [] => Ok []
        | x :: r => rbind (json_dumps x) (fun a => rbind (items r) (fun b => Ok (a :: b)))
        end in
      rbind (items l) (fun xs => Ok ([91] ++ join (lit ", ") xs ++ [93]))
  | PDict d =>
      let fix members (d : list (list Z * PyVal)) : res (list (list Z)) :=
        match d with
        | [] => Ok []
        | (k, x) :: r =>
            rbind (json_dumps x) (fun a =>
              rbind (members r) (fun b => Ok ((json_str k ++ lit ": " ++ a) :: b)))
        end in
      rbind (members d) (fun xs => Ok ([123] ++ join (lit ", ") xs ++ [125]))
  end.

(** [with tracer.start_as_current_span(name, context=..., kind=kind)]:
    [context = None] takes the current span as parent; [Some c] takes the
    span of context [c]. A valid parent gives its trace id, otherwise a new
    trace id is drawn. The body runs with the new span current; the
    previous current span is restored on every exit path. *)
Definition with_span {A} (name : string) (kind : SpanKind)
    (context : option (option SpanContext)) (body : M A) : M A :=
  fun s =>
    let parent := match context with Some c => c | None => cur s end in
    let '(tid, sid, sampled) := idgen (nid s) in
    let ctx := mkCtx (match parent with
                      | Some p => if span_is_valid p then trace_id p else tid
                      | None => tid
                      end) sid (if sampled then 1 else 0) in
    let '(r, s1, w) := body (mkSt (Some ctx) (S (nid s))) in
    (r, mkSt (cur s) (nid s1), [EvSpanStart name kind ctx] ++ w ++ [EvSpanEnd ctx]).

(** [client.post(path, json=...)] of an [httpx] client, which the
    module-level [HTTPXClientInstrumentor().instrument()] of each service
    instruments: the request is sent inside a CLIENT span named after its
    method, a child of the current span; an exception of the transport
    ends the span and propagates. The [traceparent] header that the
    instrumentation adds to the request is not modelled. *)
Definition httpx_post (url path : list Z) (json : PyVal) (outcome : HttpOutcome)
  : M Response :=
  with_span "POST" CLIENT None (emit (EvHttpPost url path json) ;; http_send outcome).

(** *** chat-service *)

Definition pika_call (env : ChatEnv) (op : PikaOp) (ev : Event) : M unit :=
  emit ev ;;
  match pika_fail env op with Some x => raise (EExt x) | None => ret tt end.

(** [_publish_to_rabbitmq_sync(queue_name, payload, headers)]. *)
Definition _publish_to_rabbitmq_sync (env : ChatEnv) (queue_name : list Z)
    (payload : PyVal) (headers : list (list Z * list Z)) : M unit :=
  pika_call env OpConnect (EvConnect (rabbitmq_host env)) ;;
  try_finally
    (pika_call env OpChannel EvChannelOpen ;;
     pika_call env OpQueueDeclare (EvQueueDeclare queue_name true) ;;
     js <- lift (json_dumps payload) ;;
     body <- lift (of_option (utf8_encode js) UnicodeEncodeError) ;;
     let properties := mkProps (lit "application/json") 2 headers in
     pika_call env OpBasicPublish (EvBasicPublish [] queue_name body properties) ;;
     pika_call env OpChannelClose EvChannelClose)
    (pika_call env OpConnectionClose EvConnectionClose).

(** [publish_to_rabbitmq(queue_name, payload)]: inject the current trace
    context into a fresh carrier, then run the blocking publish (awaited
    through [asyncio.to_thread]). *)
Definition publish_to_rabbitmq (env : ChatEnv) (queue_name : list Z) (payload : PyVal)
  : M unit :=
  c <- get_current ;;
  let carrier := inject_carrier c in
  _publish_to_rabbitmq_sync env queue_name payload carrier.

(** [POST /chat]. *)
Definition chat_endpoint (env : ChatEnv) (message : list Z) : M PyVal :=
  with_span "publish_to_rabbitmq" PRODUCER None
    (publish_to_rabbitmq env (rabbitmq_queue env) (PDict [(lit "message", PStr message)])) ;;
  classification <-
    with_span "call_nlp_service" INTERNAL None
      (try_except
         (response <- httpx_post (nlp_service_url env) (lit "/classify")
                        (PDict [(lit "text", PStr message)])
                        (classify_post env (PDict [(lit "text", PStr message)])) ;;
          raise_for_status response ;;
          response_json response)
         is_HTTPError
         (fun _ => raise (EHTTPException 502 (lit "NLP service unavailable")))) ;;
  ret (PDict [(lit "ok", PBool true); (lit "classification", classification)]).

(** [stream_generator()] of [GET /chat-stream]: the loop body of
    [for index in range(5)]. *)
Fixpoint stream_loop (indices : list nat) : M unit :=
  match indices with
  | [] => ret tt
  | index :: r =>
      let chunk := lit "chunk-" ++ z_to_dec (Z.of_nat index) ++ [10] in
      body <- lift (of_option (utf8_encode chunk) UnicodeEncodeError) ;;
      emit (EvYield body) ;;
      emit (EvSleep (Qmake 1 2)) ;;
      stream_loop r
  end.

Definition stream_generator : M unit := stream_loop (seq 0%nat 5%nat).

(** *** nlp-service *)

(** [POST /classify]. *)
Definition classify_endpoint (env : NlpEnv) (text : list Z) : M PyVal :=
  analysis <-
    try_except
      (resp <- httpx_post (dotnet_service_url env) (lit "/analyze")
                 (PDict [(lit "text", PStr text)])
                 (analyze_post env (PDict [(lit "text", PStr text)])) ;;
       raise_for_status resp ;;
       response_json resp)
      is_HTTPError
      (fun _ => raise (EHTTPException 502 (lit "Analyze service unavailable"))) ;;
  length_value <- lift (py_get analysis (lit "length") (PInt 0)) ;;
  length <- lift (py_int length_value) ;;
  let classification := if length <? 20 then lit "short" else lit "long" in
  ret (PDict [(lit "classification", PStr classification); (lit "analysis", analysis)]).

(** *** worker *)

Fixpoint normalize_items (items : list (PyVal * PyVal)) (normalized : list (list Z * list Z))
  : res (list (list Z * list Z)) :=
  match items with
  | [] => Ok normalized
  | (k, v) :: r =>
      rbind (match k with
             | PBytes b => of_option (utf8_decode Strict_ b) UnicodeDecodeError
             | _ => Ok (py_str k)
             end) (fun key =>
      let value := match v with
                   | PBytes b => match utf8_decode Ignore_ b with Some s => s | None => [] end
                   | _ => py_str v
                   end in
      normalize_items r (dict_set key value normalized))
  end.

(** [_normalize_headers(headers)]: [bytes]/[bytearray] keys are decoded
    with [k.decode()] (strict), [bytes] values with
    [v.decode(errors="ignore")], anything else goes through [str()]. *)
Definition _normalize_headers (headers : option (list (PyVal * PyVal)))
  : res (list (list Z * list Z)) :=
  match headers with
  | None | Some [] => Ok []
  | Some hs => normalize_items hs []
  end.

(** [on_message(ch, method, properties, body)]. *)
Definition on_message (env : WorkerEnv) (headers : option (list (PyVal * PyVal)))
    (delivery_tag : Z) (body : list Z) : M unit :=
  hdrs <- lift (_normalize_headers headers) ;;
  let context := extract hdrs in
  with_span "rabbitmq.process" CONSUMER (Some context)
    (try_except
       (text <- lift (of_option (utf8_decode Strict_ body) UnicodeDecodeError) ;;
        payload <- lift (json_loads text) ;;
        message <- lift (py_get payload (lit "message") (PStr [])) ;;
        _ <- lift (py_len message) ;;
        resp <- httpx_post (dotnet_url env) (lit "/analyze") (PDict [(lit "text", message)])
                  (worker_analyze_post env (PDict [(lit "text", message)])) ;;
        raise_for_status resp ;;
        _ <- response_json resp ;;
        emit (EvAck delivery_tag) ;;
        match ack_fail env with Some x => raise (EExt x) | None => ret tt end)
       is_Exception
       (fun _ =>
          emit (EvNack delivery_tag false) ;;
          match nack_fail env with Some x => raise (EExt x) | None => ret tt end)).

End Runtime.

(** ** Sample deployments

    The default configuration of the three services, with given outcomes
    for their calls to RabbitMQ and to the downstream services. *)

Definition sample_repr (v : PyVal) : list Z := [].

Definition sample_idgen (n : nat) : Z * Z * bool := (Z.of_nat n + 1, Z.of_nat n + 1, true).

Definition no_fail (op : PikaOp) : option ExtExc := None.

Definition sample_chat_env (fail : PikaOp -> option ExtExc) (classify : HttpOutcome) : ChatEnv :=
  mkChatEnv (lit "localhost") (lit "chat-jobs") (lit "http://localhost:8001") fail
    (fun _ => classify).

Definition sample_nlp_env (analyze : HttpOutcome) : NlpEnv :=
  mkNlpEnv (lit "http://localhost:8080") (fun _ => analyze).

Definition sample_worker_env (analyze : HttpOutcome) : WorkerEnv :=
  mkWorkerEnv (lit "chat-jobs") (lit "http://localhost:8080") (fun _ => analyze) None None.

(** Number of [basic_ack] and of [basic_nack] calls in a trace. *)
Definition is_ack (ev : Event) : bool := match ev with EvAck _ => true | _ => false end.
Definition is_nack (ev : Event) : bool := match ev with EvNack _ _ => true | _ => false end.
Definition count_acks (w : list Event) : nat := List.length (filter is_ack w).
Definition count_nacks (w : list Event) : nat := List.length (filter is_nack w).

(** Number of spans started in a trace. *)
Definition is_span_start (ev : Event) : bool :=
  match ev with EvSpanStart _ _ _ => true | _ => false end.
Definition count_span_starts (w : list Event) : nat := List.length (filter is_span_start w).

(** Code points below 128. *)
Definition is_ascii (c : Z) : Prop := 0 <= c < 128.

(** Unicode scalar values: the code points of a [str] other than the
    surrogates. *)
Definition is_scalar (c : Z) : Prop := 0 <= c < 1114112 /\ ~ (55296 <= c <= 57343).

(** * Proofs *)

Ltac zbool :=
  repeat (match goal with
          | |- context [?x =? ?y] => case (Z.eqb_spec x y)
          | |- context [?x <? ?y] => case (Z.ltb_spec x y)
          | |- context [?x <=? ?y] => case (Z.leb_spec x y)
          end; intro; cbn [andb orb negb]); try lia.

Lemma list_Z_eqb_eq (a b : list Z) : list_Z_eqb a b = true <-> a = b.
Proof.
  revert b; induction a as [|x a IH]; intros [|y b]; simpl;
    try (split; congruence).
  rewrite andb_true_iff, Z.eqb_eq, IH. split.
  - intros [-> ->]; reflexivity.
  - intros H; injection H; auto.
Qed.

Lemma list_Z_eqb_refl (a : list Z) : list_Z_eqb a a = true.
Proof. apply list_Z_eqb_eq; reflexivity. Qed.

(** ** Hexadecimal formatting and parsing *)

Lemma hexdig_value (d : Z) : 0 <= d < 16 -> hex_value (hexdig d) = Some d.
Proof.
  intros H. unfold hexdig.
  destruct (Z.ltb_spec d 10); unfold hex_value; zbool; f_equal; lia.
Qed.

Lemma hexdig_ascii (d : Z) : 0 <= d < 16 -> 0 <= hexdig d < 128.
Proof. intros H. unfold hexdig. zbool. Qed.

Lemma hex_fixed_length (k : nat) (n : Z) : List.length (hex_fixed k n) = k.
Proof.
  revert n; induction k as [|k IH]; intros n; simpl; [reflexivity|].
  rewrite length_app, IH; simpl; lia.
Qed.

Lemma hex_fixed_chars (k : nat) (n : Z) :
  Forall (fun c => hex_value c <> None /\ 0 <= c < 128) (hex_fixed k n).
Proof.
  revert n; induction k as [|k IH]; intros n; simpl; [constructor|].
  apply Forall_app; split; [apply IH|].
  assert (0 <= n mod 16 < 16) by (apply Z.mod_pos_bound; lia).
  constructor; [|constructor]. split.
  - rewrite hexdig_value by lia; discriminate.
  - apply hexdig_ascii; lia.
Qed.

Lemma hex_acc_app (a : Z) (l1 l2 : list Z) :
  hex_acc a (l1 ++ l2) = hex_acc (hex_acc a l1) l2.
Proof. revert a; induction l1 as [|c l1 IH]; intros a; simpl; auto. Qed.

Lemma hex_int_fixed (k : nat) (n : Z) :
  0 <= n -> hex_int (hex_fixed k n) = n mod 16 ^ Z.of_nat k.
Proof.
  unfold hex_int. revert n; induction k as [|k IH]; intros n Hn.
  - simpl. rewrite Z.mod_1_r. reflexivity.
  - simpl hex_fixed. rewrite hex_acc_app, IH by (apply Z.div_pos; lia). cbn [hex_acc].
    assert (0 <= n mod 16 < 16) by (apply Z.mod_pos_bound; lia).
    rewrite hexdig_value by lia.
    rewrite Nat2Z.inj_succ, Z.pow_succ_r by lia.
    rewrite Z.rem_mul_r by lia. lia.
Qed.

Lemma hex_int_zeros (k : nat) : hex_int (repeat 48 k) = 0.
Proof.
  unfold hex_int. induction k as [|k IH]; simpl; auto.
Qed.

Lemma format_hex_fixed (w : nat) (n : Z) :
  (1 <= w)%nat -> 0 <= n < 16 ^ Z.of_nat w -> format_hex w n = hex_fixed w n.
Proof.
  intros Hw Hn. unfold format_hex. f_equal. apply Nat.max_l.
  unfold hex_ndigits. destruct (Z.leb_spec n 0); [lia|].
  assert (H16 : 16 ^ Z.of_nat w = 2 ^ (4 * Z.of_nat w))
    by (rewrite Z.pow_mul_r by lia; reflexivity).
  assert (Hlog : Z.log2 n < 4 * Z.of_nat w)
    by (apply Z.log2_lt_pow2; lia).
  assert (Z.log2 n / 4 < Z.of_nat w) by (apply Z.div_lt_upper_bound; lia).
  assert (0 <= Z.log2 n / 4) by (apply Z.div_pos; [apply Z.log2_nonneg | lia]).
  lia.
Qed.

Lemma take_lower_hex_app (h r : list Z) :
  Forall (fun c => hex_value c <> None) h ->
  take_lower_hex (List.length h) (h ++ r) = Some (h, r).
Proof.
  induction 1 as [|c h Hc Hh IH]; simpl; auto.
  rewrite IH. destruct (hex_value c); congruence.
Qed.

(** ** UTF-8 on ASCII text *)

Lemma utf8_encode_ascii (s : list Z) : Forall is_ascii s -> utf8_encode s = Some s.
Proof.
  induction 1 as [|c s Hc Hs IH]; simpl; auto.
  rewrite IH. unfold utf8_encode_char, is_ascii in *. zbool. reflexivity.
Qed.

Lemma utf8_decode_ascii (mode : decode_errors) (s : list Z) :
  Forall is_ascii s -> utf8_decode mode s = Some s.
Proof.
  intros H. unfold utf8_decode.
  assert (Hf : forall f, (List.length s < f)%nat -> utf8_decode_fuel f mode s = Some s).
  { induction H as [|c s Hc Hs IH]; intros [|f] Hlt; simpl in *; try lia; auto.
    unfold is_ascii in Hc.
    destruct (Z.ltb_spec c 128); [|lia]. simpl.
    rewrite IH by lia. reflexivity. }
  apply Hf. lia.
Qed.

(** ** Trace context round trip *)

Lemma take_lower_hex_len (k : nat) (h r : list Z) :
  List.length h = k -> Forall (fun c => hex_value c <> None) h ->
  take_lower_hex k (h ++ r) = Some (h, r).
Proof. intros <- Hh. apply take_lower_hex_app; exact Hh. Qed.

Lemma hex_fixed_hex (k : nat) (n : Z) : Forall (fun c => hex_value c <> None) (hex_fixed k n).
Proof. eapply Forall_impl; [|apply hex_fixed_chars]. simpl; tauto. Qed.

Lemma extract_traceparent (C : SpanContext) :
  span_is_valid C = true -> 0 <= trace_flags C < 256 ->
  extract [(lit "traceparent", traceparent_of C)] = Some C.
Proof.
  destruct C as [t sp f]. unfold span_is_valid. simpl. intros Hv Hf.
  repeat rewrite andb_true_iff in Hv. rewrite !Z.ltb_lt in Hv.
  assert (Ht : 0 <= t < 16 ^ Z.of_nat 32) by (change (16 ^ Z.of_nat 32) with (2 ^ 128); lia).
  assert (Hs : 0 <= sp < 16 ^ Z.of_nat 16) by (change (16 ^ Z.of_nat 16) with (2 ^ 64); lia).
  assert (Hf' : 0 <= f < 16 ^ Z.of_nat 2) by (change (16 ^ Z.of_nat 2) with 256; lia).
  unfold traceparent_of; simpl trace_id; simpl span_id; simpl trace_flags.
  rewrite !format_hex_fixed by (lia || assumption).
  pose proof (hex_int_fixed 32 t ltac:(lia)) as I32.
  pose proof (hex_int_fixed 16 sp ltac:(lia)) as I16.
  pose proof (hex_int_fixed 2 f ltac:(lia)) as I2.
  rewrite Z.mod_small in I32, I16, I2 by lia.
  pose proof (hex_fixed_length 32 t) as L32.
  pose proof (hex_fixed_length 16 sp) as L16.
  pose proof (hex_fixed_length 2 f) as L2.
  pose proof (hex_fixed_hex 32 t) as X32.
  pose proof (hex_fixed_hex 16 sp) as X16.
  pose proof (hex_fixed_hex 2 f) as X2.
  remember (hex_fixed 32 t) as H32 eqn:E32; clear E32.
  remember (hex_fixed 16 sp) as H16 eqn:E16; clear E16.
  remember (hex_fixed 2 f) as H2 eqn:E2; clear E2.
  unfold extract. cbn [dict_get]. rewrite list_Z_eqb_refl.
  unfold match_traceparent.
  replace (drop_sp_tab (lit "00" ++ [45] ++ H32 ++ [45] ++ H16 ++ [45] ++ H2))
    with ([48; 48] ++ 45 :: H32 ++ 45 :: H16 ++ 45 :: H2 ++ [])
    by (rewrite app_nil_r; reflexivity).
  rewrite (take_lower_hex_len 2 [48; 48]) by first [reflexivity | repeat constructor; discriminate].
  rewrite take_lower_hex_len by assumption.
  rewrite take_lower_hex_len by assumption.
  rewrite take_lower_hex_len by assumption.
  cbn [traceparent_tail strip_final_newline rev forallb].
  idtac.   destruct (list_Z_eqb H32 (List.repeat 48 32)) eqn:Z32.
  { apply list_Z_eqb_eq in Z32. rewrite Z32, hex_int_zeros in I32. lia. }
  destruct (list_Z_eqb H16 (List.repeat 48 16)) eqn:Z16.
  { apply list_Z_eqb_eq in Z16. rewrite Z16, hex_int_zeros in I16. lia. }
  simpl. rewrite I32, I16, I2. reflexivity.
Qed.

Lemma traceparent_ascii (C : SpanContext) : Forall is_ascii (traceparent_of C).
Proof.
  assert (Hh : forall k n, Forall is_ascii (hex_fixed k n))
    by (intros; eapply Forall_impl; [|apply hex_fixed_chars]; unfold is_ascii; simpl; tauto).
  unfold traceparent_of, format_hex.
  repeat (apply Forall_app; split); try apply Hh;
    unfold is_ascii; simpl; repeat constructor; lia.
Qed.

Lemma amqp_wire_str_ascii (m : option nat) (s : list Z) :
  Forall is_ascii s ->
  match m with Some k => (List.length s <= k)%nat | None => True end ->
  amqp_wire_str m s = Some (PStr s).
Proof.
  intros Ha Hm. unfold amqp_wire_str.
  rewrite utf8_encode_ascii, utf8_decode_ascii by exact Ha.
  destruct m as [k|]; [|reflexivity].
  destruct (Nat.ltb_spec k (List.length s)); [lia|reflexivity].
Qed.

Lemma amqp_deliver_carrier (C : SpanContext) :
  amqp_deliver (inject_carrier (Some C))
  = Some [(PStr (lit "traceparent"), PStr (traceparent_of C))].
Proof.
  cbn [amqp_deliver inject_carrier]. rewrite amqp_wire_str_ascii, amqp_wire_str_ascii.
  - reflexivity.
  - apply traceparent_ascii.
  - exact I.
  - unfold is_ascii; simpl; repeat constructor; lia.
  - simpl; lia.
Qed.

Lemma json_decode_exc (s : list Z) (e : Exc) :
  json_decode s = Raise e -> e = JSONDecodeError.
Proof.
  unfold json_decode. destruct (scan_value _ _) as [[v r]|]; [destruct (skip_ws r)|];
    congruence.
Qed.

Lemma json_loads_exc (s : list Z) (e : Exc) : json_loads s = Raise e -> is_Exception e = true.
Proof.
  intros H. unfold json_loads in H.
  assert (json_decode s = Raise e -> is_Exception e = true)
    by (intros Hd; apply json_decode_exc in Hd; subst; reflexivity).
  destruct s as [|c s']; [auto|].
  destruct c as [|p|p]; auto.
  repeat (destruct p as [p|p|]; auto); injection H; intros <-; reflexivity.
Qed.

Lemma json_loads_bytes_exc (b : list Z) (e : Exc) :
  json_loads_bytes b = Raise e -> is_Exception e = true.
Proof.
  unfold json_loads_bytes. destruct (json_bytes_text b).
  - intros Hd; apply json_decode_exc in Hd; subst; reflexivity.
  - intros H; injection H; intros <-; reflexivity.
Qed.

Lemma py_get_exc (v : PyVal) (k : list Z) (d : PyVal) (e : Exc) :
  py_get v k d = Raise e -> is_Exception e = true.
Proof. destruct v; simpl; intros H; inversion H; reflexivity. Qed.

Lemma py_len_exc (v : PyVal) (e : Exc) : py_len v = Raise e -> is_Exception e = true.
Proof. destruct v; simpl; intros H; inversion H; reflexivity. Qed.

(** An instrumented [httpx] request: the CLIENT span around the one POST,
    and the outcome of the transport. *)
Lemma httpx_post_run (idgen : nat -> Z * Z * bool) (url path : list Z) (json : PyVal)
    (o : HttpOutcome) (s : St) :
  exists ctx,
    httpx_post idgen url path json o s
    = (match o with HResp r => Ok r | HFail x => Raise (EExt x) end,
       mkSt (cur s) (S (nid s)),
       [EvSpanStart "POST" CLIENT ctx; EvHttpPost url path json; EvSpanEnd ctx]).
Proof.
  unfold httpx_post, with_span, bind, emit, http_send, ret, raise.
  destruct (idgen (nid s)) as [[t sd] b]. destruct o; eexists; reflexivity.
Qed.

(** Replace the one instrumented request of the goal by its outcome. *)
Ltac httpx_run :=
  match goal with
  | |- context [httpx_post ?g ?u ?p ?j ?o ?st] =>
      let cc := fresh "cc" in
      let Hcc := fresh "Hcc" in
      destruct (httpx_post_run g u p j o st) as [cc Hcc];
      rewrite Hcc; clear Hcc
  end.

Section Claims.

Variable py_repr : PyVal -> list Z.
Variable idgen : nat -> Z * Z * bool.

Lemma normalize_str_pair (k v : list Z) :
  _normalize_headers py_repr (Some [(PStr k, PStr v)]) = Ok [(k, v)].
Proof. reflexivity. Qed.


Lemma with_span_parent {A} (name : string) (kind : SpanKind) (p : SpanContext)
    (body : M A) (s : St) :
  span_is_valid p = true ->
  exists ctx w, snd (with_span idgen name kind (Some (Some p)) body s)
                = EvSpanStart name kind ctx :: w /\ trace_id ctx = trace_id p.
Proof.
  intros Hp. unfold with_span.
  destruct (idgen (nid s)) as [[t sd] b]. rewrite Hp.
  destruct (body _) as [[r s1] w].
  eexists _, _; split; reflexivity.
Qed.

Lemma publish_sync_event (env : ChatEnv) (q : list Z) (payload : PyVal)
    (hs : list (list Z * list Z)) (s : St) ex rk body props :
  In (EvBasicPublish ex rk body props)
     (snd (_publish_to_rabbitmq_sync py_repr env q payload hs s)) ->
  ex = [] /\ rk = q /\ props = mkProps (lit "application/json") 2 hs
  /\ exists js, json_dumps py_repr payload = Ok js /\ utf8_encode js = Some body.
Proof.
  unfold _publish_to_rabbitmq_sync, try_finally, pika_call, bind, emit, lift, ret, raise.
  destruct (pika_fail env OpConnect); simpl; [intuition congruence|].
  destruct (pika_fail env OpConnectionClose);
  destruct (pika_fail env OpChannel); simpl; try (intuition congruence);
  destruct (pika_fail env OpQueueDeclare); simpl; try (intuition congruence);
  destruct (json_dumps py_repr payload) as [js|] eqn:Ej; simpl; try (intuition congruence);
  destruct (utf8_encode js) as [b|] eqn:Eb; simpl; try (intuition congruence);
  destruct (pika_fail env OpBasicPublish); simpl;
  try destruct (pika_fail env OpChannelClose); simpl;
  intuition (try congruence);
  match goal with H : EvBasicPublish _ _ _ _ = EvBasicPublish _ _ _ _ |- _ =>
    injection H; intros; subst; eauto 7 end.
Qed.


(** C1: when a valid span context [C] is current at the call of
    [publish_to_rabbitmq], the headers of the published message, once
    delivered by the broker, normalized by the worker and passed to
    [extract], give back [C]; the worker's [rabbitmq.process] consumer
    span started with it as parent has the trace id of [C]. *)
Theorem C1_context_roundtrip (env : ChatEnv) (q : list Z) (payload : PyVal) (s : St)
    (C : SpanContext) ex rk body props :
  cur s = Some C -> span_is_valid C = true -> 0 <= trace_flags C < 256 ->
  In (EvBasicPublish ex rk body props) (snd (publish_to_rabbitmq py_repr env q payload s)) ->
  exists delivered hdrs,
    amqp_deliver (bp_headers props) = Some delivered
    /\ _normalize_headers py_repr (Some delivered) = Ok hdrs
    /\ extract hdrs = Some C
    /\ forall wenv tag body' s', exists ctx w,
         snd (on_message py_repr idgen wenv (Some delivered) tag body' s')
           = EvSpanStart "rabbitmq.process" CONSUMER ctx :: w
         /\ trace_id ctx = trace_id C.
Proof.
  intros Hc Hv Hf H.
  assert (Hs : snd (publish_to_rabbitmq py_repr env q payload s)
               = snd (_publish_to_rabbitmq_sync py_repr env q payload (inject_carrier (Some C)) s)).
  { unfold publish_to_rabbitmq, bind, get_current. rewrite Hc. cbn beta iota zeta.
    destruct (_publish_to_rabbitmq_sync _ _ _ _ _ s) as [[r s2] w]; reflexivity. }
  rewrite Hs in H. apply publish_sync_event in H as (_ & _ & -> & _). cbn [bp_headers].
  rewrite amqp_deliver_carrier.
  eexists _, _; split; [reflexivity|]. split; [apply normalize_str_pair|].
  split; [apply extract_traceparent; assumption|].
  intros wenv tag body' s'.
  unfold on_message, bind, lift. rewrite normalize_str_pair. cbn beta iota zeta.
  rewrite extract_traceparent by assumption.
  match goal with |- context [with_span idgen ?n ?k (Some (Some C)) ?b s'] =>
    destruct (with_span_parent n k C b s' Hv) as (ctx & w & Hw & Ht);
    destruct (with_span idgen n k (Some (Some C)) b s') as [[r s2] w2]
  end.
  simpl in Hw |- *. subst w2. eauto.
Qed.

(** C2 (amended): for a delivery whose headers normalize without error,
    whose [basic_ack] call returns normally, and for which every exception
    raised by the analyze call is an [Exception], exactly one of
    [basic_ack] and [basic_nack] is invoked. *)
Theorem C2_ack_nack_exactly_one (wenv : WorkerEnv) (h : option (list (PyVal * PyVal)))
    (hdrs : list (list Z * list Z)) (tag : Z) (body : list Z) (s : St) :
  _normalize_headers py_repr h = Ok hdrs ->
  ack_fail wenv = None ->
  (forall v x, worker_analyze_post wenv v = HFail x -> is_Exception (EExt x) = true) ->
  let w := snd (on_message py_repr idgen wenv h tag body s) in
  (count_acks w + count_nacks w = 1)%nat.
Proof.
  intros Hn Ha Hx w. subst w.
  unfold on_message, bind, lift. rewrite Hn. cbn beta iota zeta.
  unfold with_span. destruct (idgen (nid s)) as [[t sd] b].
  unfold try_except, bind, lift, emit, http_send, raise_for_status, response_json, ret, raise, of_option.
  destruct (utf8_decode Strict_ body) as [text|]; [|simpl; destruct (nack_fail wenv); reflexivity].
  destruct (json_loads text) as [payload|e] eqn:E1;
    [|rewrite (json_loads_exc _ _ E1); simpl; destruct (nack_fail wenv); reflexivity].
  destruct (py_get payload (lit "message") (PStr [])) as [message|e] eqn:E2;
    [|rewrite (py_get_exc _ _ _ _ E2); simpl; destruct (nack_fail wenv); reflexivity].
  destruct (py_len message) as [n|e] eqn:E3;
    [|rewrite (py_len_exc _ _ E3); simpl; destruct (nack_fail wenv); reflexivity].
  httpx_run.
  destruct (worker_analyze_post wenv (PDict [(lit "text", message)])) as [r|x] eqn:Ep.
  - destruct ((200 <=? status_code r) && (status_code r <? 300)).
    + destruct (json_loads_bytes (content r)) as [a|e] eqn:E4.
      * rewrite Ha; simpl; reflexivity.
      * simpl. rewrite (json_loads_bytes_exc _ _ E4). simpl. destruct (nack_fail wenv); reflexivity.
    + simpl. destruct (nack_fail wenv); reflexivity.
  - rewrite (Hx _ _ Ep). simpl. destruct (nack_fail wenv); reflexivity.
Qed.

Lemma publish_sync_no_post (env : ChatEnv) (q : list Z) (payload : PyVal)
    (hs : list (list Z * list Z)) (s : St) b p j :
  ~ In (EvHttpPost b p j) (snd (_publish_to_rabbitmq_sync py_repr env q payload hs s)).
Proof.
  unfold _publish_to_rabbitmq_sync, try_finally, pika_call, bind, emit, lift, ret, raise.
  destruct (pika_fail env OpConnect); simpl; [intuition congruence|].
  destruct (pika_fail env OpConnectionClose);
  destruct (pika_fail env OpChannel); simpl; try (intuition congruence);
  destruct (pika_fail env OpQueueDeclare); simpl; try (intuition congruence);
  destruct (json_dumps py_repr payload) as [js|]; simpl; try (intuition congruence);
  destruct (utf8_encode js) as [bd|]; simpl; try (intuition congruence);
  destruct (pika_fail env OpBasicPublish); simpl;
  try destruct (pika_fail env OpChannelClose); simpl;
  intuition congruence.
Qed.

Lemma publish_sync_raise (env : ChatEnv) (q : list Z) (payload : PyVal)
    (hs : list (list Z * list Z)) (s : St) (e : Exc) :
  (exists js, json_dumps py_repr payload = Ok js) ->
  fst (fst (_publish_to_rabbitmq_sync py_repr env q payload hs s)) = Raise e ->
  forall st d, e <> EHTTPException st d.
Proof.
  intros [js Ej] H st d ->. revert H.
  unfold _publish_to_rabbitmq_sync, try_finally, pika_call, bind, emit, lift, ret, raise,
    of_option, UnicodeEncodeError.
  rewrite Ej.
  destruct (pika_fail env OpConnect); simpl; [congruence|].
  destruct (pika_fail env OpConnectionClose);
  destruct (pika_fail env OpChannel); simpl; try congruence;
  destruct (pika_fail env OpQueueDeclare); simpl; try congruence;
  destruct (utf8_encode js) as [bd|]; simpl; try congruence;
  destruct (pika_fail env OpBasicPublish); simpl; try congruence;
  destruct (pika_fail env OpChannelClose); simpl; congruence.
Qed.

Lemma with_span_run {A} (name : string) (kind : SpanKind) (c : option (option SpanContext))
    (body : M A) (s : St) :
  exists ctx,
    fst (fst (with_span idgen name kind c body s))
      = fst (fst (body (mkSt (Some ctx) (S (nid s)))))
    /\ snd (with_span idgen name kind c body s)
      = EvSpanStart name kind ctx :: snd (body (mkSt (Some ctx) (S (nid s)))) ++ [EvSpanEnd ctx].
Proof.
  unfold with_span. destruct (idgen (nid s)) as [[t sd] b].
  match goal with |- context [body (mkSt (Some ?c) ?n)] =>
    exists c; destruct (body (mkSt (Some c) n)) as [[r s1] w] end.
  split; reflexivity.
Qed.





Lemma publish_run (env : ChatEnv) (q : list Z) (payload : PyVal) (s : St) :
  publish_to_rabbitmq py_repr env q payload s
  = _publish_to_rabbitmq_sync py_repr env q payload (inject_carrier (cur s)) s.
Proof.
  unfold publish_to_rabbitmq, bind, get_current. cbn beta iota zeta.
  destruct (_publish_to_rabbitmq_sync _ _ _ _ _ s) as [[r s2] w]; reflexivity.
Qed.

Lemma snd_let_app {A} (T : res A * St * list Event) (w1 : list Event) :
  snd (let '(r, s2, w2) := T in (r, s2, w1 ++ w2)) = w1 ++ snd T.
Proof. destruct T as [[r s2] w2]; reflexivity. Qed.

(** C7: the trace of [POST /chat] starts with the complete trace of the
    publish step, which contains no call to [/classify]; when the publish
    step raises [e], the request ends there with [e] unhandled: no
    [/classify] call, neither the 200 body nor the 502 reply. *)
Theorem C7_publish_failure_fatal (env : ChatEnv) (message : list Z) (s : St) :
  let P := with_span idgen "publish_to_rabbitmq" PRODUCER None
             (publish_to_rabbitmq py_repr env (rabbitmq_queue env)
                (PDict [(lit "message", PStr message)])) s in
  (exists rest, snd (chat_endpoint py_repr idgen env message s) = snd P ++ rest)
  /\ (forall b p j, ~ In (EvHttpPost b p j) (snd P))
  /\ (forall e, fst (fst P) = Raise e ->
        snd (chat_endpoint py_repr idgen env message s) = snd P
        /\ fastapi_reply (fst (fst (chat_endpoint py_repr idgen env message s)))
           = Unhandled e).
Proof.
  intros P.
  assert (Hchat : chat_endpoint py_repr idgen env message s
                  = match P with
                    | (Ok _, s1, w1) =>
                        let '(r, s2, w2) := (classification <-
                          with_span idgen "call_nlp_service" INTERNAL None
                            (try_except
                               (response <- httpx_post idgen (nlp_service_url env)
                                              (lit "/classify")
                                              (PDict [(lit "text", PStr message)])
                                              (classify_post env
                                                 (PDict [(lit "text", PStr message)])) ;;
                                raise_for_status response ;;
                                response_json response)
                               is_HTTPError
                               (fun _ => raise (EHTTPException 502
                                                  (lit "NLP service unavailable")))) ;;
                          ret (PDict [(lit "ok", PBool true);
                                      (lit "classification", classification)])) s1
                        in (r, s2, w1 ++ w2)
                    | (Raise e, s1, w1) => (Raise e, s1, w1)
                    end) by reflexivity.
  destruct (with_span_run "publish_to_rabbitmq" PRODUCER None
              (publish_to_rabbitmq py_repr env (rabbitmq_queue env)
                 (PDict [(lit "message", PStr message)])) s) as (ctx & HPr & HPw).
  fold P in HPr, HPw. rewrite publish_run in HPr, HPw.
  split; [|split].
  - rewrite Hchat. destruct P as [[r1 s1] w1]. destruct r1 as [u|e].
    + eexists; apply snd_let_app.
    + exists []. rewrite app_nil_r. reflexivity.
  - intros b p j Hin. rewrite HPw in Hin. simpl in Hin.
    destruct Hin as [Hin|Hin]; [discriminate|].
    apply in_app_or in Hin as [Hin|[Hin|[]]]; [|discriminate].
    exact (publish_sync_no_post _ _ _ _ _ _ _ _ Hin).
  - intros e He. rewrite Hchat. rewrite He in HPr.
    assert (Hne : forall st d, e <> EHTTPException st d).
    { eapply publish_sync_raise. 2: (symmetry; exact HPr). eexists; cbn; reflexivity. }
    destruct P as [[r1 s1] w1]. cbn [fst] in He. subst r1.
    split; [reflexivity|]. cbn [fst].
    destruct e; try reflexivity. exfalso. eapply Hne; reflexivity.
Qed.












(** C8: [stream_generator] yields exactly [chunk-0\n] to [chunk-4\n] in
    order, each followed by a sleep of 0.5 s, and then stops. *)
Theorem C8_stream_chunks (s : St) :
  stream_generator s
  = (Ok tt, s,
     [EvYield (lit "chunk-0" ++ [10]); EvSleep (1 # 2);
      EvYield (lit "chunk-1" ++ [10]); EvSleep (1 # 2);
      EvYield (lit "chunk-2" ++ [10]); EvSleep (1 # 2);
      EvYield (lit "chunk-3" ++ [10]); EvSleep (1 # 2);
      EvYield (lit "chunk-4" ++ [10]); EvSleep (1 # 2)]).
Proof. reflexivity. Qed.

(** C6: a call of [publish_to_rabbitmq(queue, payload)] that completes
    connects, opens a channel, declares [queue] durable, publishes on the
    default exchange with routing key [queue] the UTF-8 bytes of
    [json.dumps(payload)] with content type [application/json], delivery
    mode 2 and the carrier injected from the current span as headers,
    then closes the channel and the connection. *)
Theorem C6_publish_contract (env : ChatEnv) (q : list Z) (payload : PyVal) (s : St) :
  fst (fst (publish_to_rabbitmq py_repr env q payload s)) = Ok tt ->
  exists js body,
    json_dumps py_repr payload = Ok js /\ utf8_encode js = Some body
    /\ snd (publish_to_rabbitmq py_repr env q payload s)
       = [EvConnect (rabbitmq_host env); EvChannelOpen; EvQueueDeclare q true;
          EvBasicPublish [] q body (mkProps (lit "application/json") 2 (inject_carrier (cur s)));
          EvChannelClose; EvConnectionClose].
Proof.
  rewrite publish_run.
  unfold _publish_to_rabbitmq_sync, try_finally, pika_call, bind, emit, lift, ret, raise,
    of_option.
  destruct (pika_fail env OpConnect); simpl; [discriminate|].
  destruct (pika_fail env OpConnectionClose); simpl;
  destruct (pika_fail env OpChannel); simpl; try discriminate;
  destruct (pika_fail env OpQueueDeclare); simpl; try discriminate;
  destruct (json_dumps py_repr payload) as [js|e0]; simpl; try discriminate;
  destruct (utf8_encode js) as [bd|] eqn:Eb; simpl; try discriminate;
  destruct (pika_fail env OpBasicPublish); simpl; try discriminate;
  destruct (pika_fail env OpChannelClose); simpl; try discriminate.
  intros _. exists js, bd. auto.
Qed.

(** C5: [_normalize_headers] raises [UnicodeDecodeError] on a header
    mapping with the byte-string key [b"\xff"]; [on_message] then raises
    before any span, ack or nack. *)
Theorem C5_normalize_bytes_key_raises (wenv : WorkerEnv) (tag : Z) (body : list Z) (s : St) :
  _normalize_headers py_repr (Some [(PBytes [255], PStr (lit "x"))]) = Raise UnicodeDecodeError
  /\ on_message py_repr idgen wenv (Some [(PBytes [255], PStr (lit "x"))]) tag body s
     = (Raise UnicodeDecodeError, s, []).
Proof. split; reflexivity. Qed.

End Claims.
(** ** Witnesses and counterexamples on the sample deployments *)

Lemma C1_witness :
  In (EvBasicPublish [] (lit "chat-jobs")
        ([123] ++ json_str (lit "message") ++ lit ": " ++ json_str (lit "hi") ++ [125])
        (mkProps (lit "application/json") 2 (inject_carrier (Some (mkCtx 100 7 1)))))
     (snd (publish_to_rabbitmq sample_repr
             (sample_chat_env no_fail (HResp (mkResponse 200 (lit "{}"))))
             (lit "chat-jobs") (PDict [(lit "message", PStr (lit "hi"))])
             (mkSt (Some (mkCtx 100 7 1)) 1)))
  /\ exists delivered hdrs,
       amqp_deliver (inject_carrier (Some (mkCtx 100 7 1))) = Some delivered
       /\ _normalize_headers sample_repr (Some delivered) = Ok hdrs
       /\ extract hdrs = Some (mkCtx 100 7 1)
       /\ forall wenv tag body' s', exists ctx w,
            snd (on_message sample_repr sample_idgen wenv (Some delivered) tag body' s')
              = EvSpanStart "rabbitmq.process" CONSUMER ctx :: w
            /\ trace_id ctx = 100.
Proof.
  assert (Hin : In (EvBasicPublish [] (lit "chat-jobs")
        ([123] ++ json_str (lit "message") ++ lit ": " ++ json_str (lit "hi") ++ [125])
        (mkProps (lit "application/json") 2 (inject_carrier (Some (mkCtx 100 7 1)))))
     (snd (publish_to_rabbitmq sample_repr
             (sample_chat_env no_fail (HResp (mkResponse 200 (lit "{}"))))
             (lit "chat-jobs") (PDict [(lit "message", PStr (lit "hi"))])
             (mkSt (Some (mkCtx 100 7 1)) 1)))) by (vm_compute; tauto).
  split; [exact Hin|].
  apply (C1_context_roundtrip sample_repr sample_idgen
           (sample_chat_env no_fail (HResp (mkResponse 200 (lit "{}"))))
           (lit "chat-jobs") (PDict [(lit "message", PStr (lit "hi"))])
           (mkSt (Some (mkCtx 100 7 1)) 1) (mkCtx 100 7 1) [] (lit "chat-jobs")
           ([123] ++ json_str (lit "message") ++ lit ": " ++ json_str (lit "hi") ++ [125])
           (mkProps (lit "application/json") 2 (inject_carrier (Some (mkCtx 100 7 1)))));
    [reflexivity | reflexivity | simpl; lia | exact Hin].
Defined.

Lemma C2_witness :
  _normalize_headers sample_repr None = Ok []
  /\ ack_fail (sample_worker_env (HResp (mkResponse 200 (lit "{}")))) = None
  /\ (count_acks (snd (on_message sample_repr sample_idgen
                        (sample_worker_env (HResp (mkResponse 200 (lit "{}"))))
                        None 1 (lit "{}") (mkSt None 0)))
      + count_nacks (snd (on_message sample_repr sample_idgen
                        (sample_worker_env (HResp (mkResponse 200 (lit "{}"))))
                        None 1 (lit "{}") (mkSt None 0))) = 1)%nat.
Proof.
  split; [reflexivity|]. split; [reflexivity|].
  apply (C2_ack_nack_exactly_one sample_repr sample_idgen
           (sample_worker_env (HResp (mkResponse 200 (lit "{}")))) None [] 1 (lit "{}")
           (mkSt None 0)); [reflexivity | reflexivity |].
  intros v x H; discriminate.
Defined.

(** A [KeyboardInterrupt] raised by the analyze call escapes
    [except Exception]: neither [basic_ack] nor [basic_nack] is called. *)
Lemma C2_counterexample :
  let w := snd (on_message sample_repr sample_idgen
                  (sample_worker_env (HFail (XBase "KeyboardInterrupt")))
                  None 1 (lit "{}") (mkSt None 0)) in
  count_acks w = 0%nat /\ count_nacks w = 0%nat.
Proof. vm_compute. split; reflexivity. Qed.




Lemma C6_witness :
  exists js body,
    json_dumps sample_repr (PDict [(lit "message", PStr (lit "hi"))]) = Ok js
    /\ utf8_encode js = Some body
    /\ snd (publish_to_rabbitmq sample_repr
              (sample_chat_env no_fail (HResp (mkResponse 200 (lit "{}"))))
              (lit "chat-jobs") (PDict [(lit "message", PStr (lit "hi"))])
              (mkSt (Some (mkCtx 100 7 1)) 1))
       = [EvConnect (lit "localhost"); EvChannelOpen; EvQueueDeclare (lit "chat-jobs") true;
          EvBasicPublish [] (lit "chat-jobs") body
            (mkProps (lit "application/json") 2 (inject_carrier (Some (mkCtx 100 7 1))));
          EvChannelClose; EvConnectionClose].
Proof.
  apply (C6_publish_contract sample_repr
           (sample_chat_env no_fail (HResp (mkResponse 200 (lit "{}"))))
           (lit "chat-jobs") (PDict [(lit "message", PStr (lit "hi"))])
           (mkSt (Some (mkCtx 100 7 1)) 1)).
  reflexivity.
Defined.

Lemma C7_witness :
  snd (chat_endpoint sample_repr sample_idgen
         (sample_chat_env (fun op => match op with
                                     | OpConnect => Some (XPika "AMQPConnectionError")
                                     | _ => None end)
                          (HResp (mkResponse 200 (lit "{}"))))
         (lit "hi") (mkSt None 0))
  = snd (with_span sample_idgen "publish_to_rabbitmq" PRODUCER None
           (publish_to_rabbitmq sample_repr
              (sample_chat_env (fun op => match op with
                                          | OpConnect => Some (XPika "AMQPConnectionError")
                                          | _ => None end)
                               (HResp (mkResponse 200 (lit "{}"))))
              (lit "chat-jobs") (PDict [(lit "message", PStr (lit "hi"))]))
           (mkSt None 0))
  /\ fastapi_reply (fst (fst (chat_endpoint sample_repr sample_idgen
         (sample_chat_env (fun op => match op with
                                     | OpConnect => Some (XPika "AMQPConnectionError")
                                     | _ => None end)
                          (HResp (mkResponse 200 (lit "{}"))))
         (lit "hi") (mkSt None 0))))
     = Unhandled (EExt (XPika "AMQPConnectionError")).
Proof.
  pose proof (C7_publish_failure_fatal sample_repr sample_idgen
         (sample_chat_env (fun op => match op with
                                     | OpConnect => Some (XPika "AMQPConnectionError")
                                     | _ => None end)
                          (HResp (mkResponse 200 (lit "{}"))))
         (lit "hi") (mkSt None 0)) as H.
  cbv zeta in H. destruct H as (_ & _ & H).
  apply H. reflexivity.
Defined.


(** [int()] reads the decimal digits of every script: an analysis whose
    [length] is the string ["١٩"] (Arabic-Indic digits) is classified
    "short". *)
Example classify_arabic_indic_length :
  fst (fst (classify_endpoint sample_idgen
              (sample_nlp_env (HResp (mkResponse 200
                 (lit "{" ++ [34] ++ lit "length" ++ [34] ++ lit ": "
                  ++ [34; 217; 161; 217; 169; 34; 125]))))
              (lit "hi") (mkSt None 0)))
  = Ok (PDict [(lit "classification", PStr (lit "short"));
               (lit "analysis", PDict [(lit "length", PStr [1633; 1641])])]).
Proof. vm_compute. reflexivity. Qed.


(** * Further properties of the services *)

(** ** JSON strings: [json.dumps] escaping read back by [json.loads] *)
Lemma scan_string_cons (c : Z) (r acc : list Z) :
  32 <= c -> c <> 34 -> c <> 92 -> scan_string (c :: r) acc = scan_string r (c :: acc).
Proof.
  intros H1 H2 H3.
  destruct c as [|p|p]; [lia| |lia].
  cbn [scan_string].
  repeat (destruct p as [p|p|]; try reflexivity; try lia).
Qed.


Lemma hex_any_hexdig (d : Z) : 0 <= d < 16 -> hex_any (hexdig d) = Some d.
Proof.
  intros H. unfold hexdig, hex_any, in_range.
  destruct (Z.ltb_spec d 10); zbool; f_equal; lia.
Qed.

Lemma hex_fixed_4 (n : Z) :
  hex_fixed 4 n = [hexdig (n / 16 / 16 / 16 mod 16); hexdig (n / 16 / 16 mod 16);
                   hexdig (n / 16 mod 16); hexdig (n mod 16)].
Proof. reflexivity. Qed.

Lemma hex4_fixed (n : Z) (r : list Z) : 0 <= n < 65536 ->
  exists a b c d, hex_fixed 4 n = [a; b; c; d] /\ hex4 a b c d = Some n.
Proof.
  intros Hn. rewrite hex_fixed_4. do 4 eexists. split; [reflexivity|].
  unfold hex4. rewrite !hex_any_hexdig by (apply Z.mod_pos_bound; lia).
  f_equal. Z.div_mod_to_equations. lia.
Qed.

Lemma scan_escape (c : Z) (r acc : list Z) :
  is_scalar c -> scan_string (json_escape_char c ++ r) acc = scan_string r (c :: acc).
Proof.
  intros [Hc Hs]. unfold json_escape_char.
  destruct (Z.eqb_spec c 34); [subst; reflexivity|].
  destruct (Z.eqb_spec c 92); [subst; reflexivity|].
  destruct (Z.eqb_spec c 10); [subst; reflexivity|].
  destruct (Z.eqb_spec c 13); [subst; reflexivity|].
  destruct (Z.eqb_spec c 9); [subst; reflexivity|].
  destruct (Z.eqb_spec c 8); [subst; reflexivity|].
  destruct (Z.eqb_spec c 12); [subst; reflexivity|].
  destruct (in_range 32 126 c) eqn:Hr.
  { unfold in_range in Hr. apply andb_true_iff in Hr as [H1 H2].
    apply Z.leb_le in H1. apply scan_string_cons; lia. }
  destruct (Z.ltb_spec c 65536).
  - destruct (hex4_fixed c r ltac:(lia)) as (a & b & x & d & He & Hv).
    rewrite He. cbn [app scan_string]. rewrite Hv.
    unfold in_range. zbool; reflexivity.
  - assert (0 <= (c - 65536) / 1024 < 1024) by (Z.div_mod_to_equations; lia).
    assert (0 <= (c - 65536) mod 1024 < 1024) by (apply Z.mod_pos_bound; lia).
    set (c' := c - 65536) in *.
    destruct (hex4_fixed (55296 + c' / 1024) r ltac:(lia)) as (a & b & x & d & He & Hv).
    destruct (hex4_fixed (56320 + c' mod 1024) r ltac:(lia)) as (e & f & g & h & He2 & Hv2).
    rewrite He, He2. cbn [app scan_string]. rewrite Hv.
    unfold in_range.
    destruct (Z.leb_spec 55296 (55296 + c' / 1024)); [|lia].
    destruct (Z.leb_spec (55296 + c' / 1024) 56319); [|lia]. cbn [andb].
    rewrite Hv2.
    destruct (Z.leb_spec 56320 (56320 + c' mod 1024)); [|lia].
    destruct (Z.leb_spec (56320 + c' mod 1024) 57343); [|lia]. cbn [andb].
    do 2 f_equal. unfold c'. Z.div_mod_to_equations. lia.
Qed.

Lemma scan_escapes (m r acc : list Z) :
  Forall is_scalar m ->
  scan_string (flat_map json_escape_char m ++ r) acc = scan_string r (rev m ++ acc).
Proof.
  intros H. revert acc. induction H as [|c m Hc Hm IH]; intros acc; [reflexivity|].
  cbn [flat_map]. rewrite <- app_assoc, scan_escape by exact Hc.
  rewrite IH. cbn [rev]. rewrite <- app_assoc. reflexivity.
Qed.

Lemma scan_json_str (m r : list Z) :
  Forall is_scalar m -> scan_string (flat_map json_escape_char m ++ 34 :: r) [] = Some (m, r).
Proof.
  intros H. rewrite scan_escapes by exact H. cbn. rewrite app_nil_r, rev_involutive. reflexivity.
Qed.

Lemma hex_fixed_ascii (k : nat) (n : Z) : Forall is_ascii (hex_fixed k n).
Proof. eapply Forall_impl; [|apply hex_fixed_chars]. unfold is_ascii; tauto. Qed.

Lemma json_escape_ascii (c : Z) : Forall is_ascii (json_escape_char c).
Proof.
  unfold json_escape_char.
  destruct (c =? 34); [repeat constructor; unfold is_ascii; lia|].
  destruct (c =? 92); [repeat constructor; unfold is_ascii; lia|].
  destruct (c =? 10); [repeat constructor; unfold is_ascii; lia|].
  destruct (c =? 13); [repeat constructor; unfold is_ascii; lia|].
  destruct (c =? 9); [repeat constructor; unfold is_ascii; lia|].
  destruct (c =? 8); [repeat constructor; unfold is_ascii; lia|].
  destruct (c =? 12); [repeat constructor; unfold is_ascii; lia|].
  destruct (in_range 32 126 c) eqn:Hr.
  { unfold in_range in Hr. apply andb_true_iff in Hr as [H1 H2].
    apply Z.leb_le in H1. apply Z.leb_le in H2. repeat constructor; unfold is_ascii; lia. }
  destruct (c <? 65536).
  - constructor; [unfold is_ascii; lia|]. constructor; [unfold is_ascii; lia|].
    apply hex_fixed_ascii.
  - constructor; [unfold is_ascii; lia|]. constructor; [unfold is_ascii; lia|].
    apply Forall_app; split; [apply hex_fixed_ascii|].
    constructor; [unfold is_ascii; lia|]. constructor; [unfold is_ascii; lia|].
    apply hex_fixed_ascii.
Qed.

Lemma json_str_ascii (m : list Z) : Forall is_ascii (json_str m).
Proof.
  unfold json_str. constructor; [unfold is_ascii; lia|].
  apply Forall_app; split; [|repeat constructor; unfold is_ascii; lia].
  induction m as [|c m IH]; [constructor|]. cbn [flat_map].
  apply Forall_app; split; [apply json_escape_ascii | exact IH].
Qed.

Lemma json_loads_str (m : list Z) : Forall is_scalar m -> json_loads (json_str m) = Ok (PStr m).
Proof.
  intros H. unfold json_loads, json_str. cbn [app].
  unfold json_decode.
  assert (Hs : forall x, skip_ws (34 :: x) = 34 :: x) by reflexivity.
  rewrite Hs. cbn [scan_value].
  rewrite scan_json_str by exact H. reflexivity.
Qed.

Lemma skip_ws_quote (x : list Z) : skip_ws (34 :: x) = 34 :: x.
Proof. reflexivity. Qed.

Lemma json_dumps_str_dict (py_repr : PyVal -> list Z) (k m : list Z) :
  json_dumps py_repr (PDict [(k, PStr m)]) = Ok (123 :: json_str k ++ 58 :: 32 :: json_str m ++ [125]).
Proof. cbn. unfold json_str. simpl. rewrite <- !app_assoc. simpl. rewrite <- !app_assoc. reflexivity. Qed.

Lemma scan_value_str_dict (f : nat) (k m rest : list Z) :
  (3 <= f)%nat -> Forall is_scalar k -> Forall is_scalar m ->
  scan_value f (123 :: json_str k ++ 58 :: 32 :: json_str m ++ 125 :: rest)
  = Some (PDict [(k, PStr m)], rest).
Proof.
  intros Hf Hk Hm. destruct f as [|[|[|f]]]; try lia.
  unfold json_str. cbn [app]. rewrite <- !app_assoc. cbn [app].
  cbn [scan_value]. rewrite skip_ws_quote. cbn [scan_members].
  rewrite scan_json_str by exact Hk. cbn [skip_ws].
  change (is_json_ws 58) with false; change (is_json_ws 32) with true;
  change (is_json_ws 34) with false. cbv iota beta.
  assert (Hsp : forall x, skip_ws (32 :: x) = skip_ws x) by reflexivity.
  rewrite Hsp, skip_ws_quote.
  cbn [scan_value]. rewrite scan_json_str by exact Hm. cbn [option_map fst snd skip_ws].
  change (is_json_ws 125) with false. cbv iota beta. reflexivity.
Qed.

Lemma json_loads_str_dict (k m : list Z) :
  Forall is_scalar k -> Forall is_scalar m ->
  json_loads (123 :: json_str k ++ 58 :: 32 :: json_str m ++ [125]) = Ok (PDict [(k, PStr m)]).
Proof.
  intros Hk Hm. unfold json_loads, json_decode.
  assert (Hb : forall x, skip_ws (123 :: x) = 123 :: x) by reflexivity.
  rewrite Hb, scan_value_str_dict; auto.
  unfold json_str. cbn [List.length]. rewrite !length_app. cbn [List.length]. lia.
Qed.

(** ** UTF-8 round trip on Unicode scalar values *)
Lemma utf8_step_encode (c : Z) (b r : list Z) :
  is_scalar c -> utf8_encode_char c = Some b ->
  utf8_step (b ++ r) = inl (c, List.length b).
Proof.
  intros [H1 H2] He. unfold utf8_encode_char in He.
  destruct (Z.ltb_spec c 0); [lia|].
  destruct (Z.ltb_spec c 128).
  { injection He as <-. cbn. zbool. reflexivity. }
  destruct (Z.ltb_spec c 2048).
  { assert (E : c = (192 + c / 64 - 192) * 64 + (128 + c mod 64 - 128))
      by (Z.div_mod_to_equations; lia).
    assert (B0 : 194 <= 192 + c / 64 <= 223) by (Z.div_mod_to_equations; lia).
    assert (B1 : 128 <= 128 + c mod 64 <= 191) by (Z.div_mod_to_equations; lia).
    set (x0 := 192 + c / 64) in *. set (x1 := 128 + c mod 64) in *. clearbody x0 x1.
    injection He as <-.
    cbn [app utf8_step List.length]. unfold in_range. zbool. rewrite E. reflexivity. }
  replace ((55296 <=? c) && (c <=? 57343)) with false in He
    by (symmetry; apply andb_false_iff;
        destruct (Z.leb_spec 55296 c); destruct (Z.leb_spec c 57343); auto; lia).
  cbv iota in He.
  - destruct (Z.ltb_spec c 65536).
    + assert (E : c = (224 + c / 4096 - 224) * 4096 + (128 + (c / 64) mod 64 - 128) * 64
                      + (128 + c mod 64 - 128)) by (Z.div_mod_to_equations; lia).
      assert (B0 : 224 <= 224 + c / 4096 <= 239) by (Z.div_mod_to_equations; lia).
      assert (B1 : 128 <= 128 + (c / 64) mod 64 <= 191) by (Z.div_mod_to_equations; lia).
      assert (B2 : 128 <= 128 + c mod 64 <= 191) by (Z.div_mod_to_equations; lia).
      assert (L1 : 224 + c / 4096 = 224 -> 160 <= 128 + (c / 64) mod 64)
        by (Z.div_mod_to_equations; lia).
      assert (L2 : 224 + c / 4096 = 237 -> 128 + (c / 64) mod 64 <= 159)
        by (Z.div_mod_to_equations; lia).
      set (x0 := 224 + c / 4096) in *. set (x1 := 128 + (c / 64) mod 64) in *.
      set (x2 := 128 + c mod 64) in *. clearbody x0 x1 x2.
      injection He as <-.
      cbn [app utf8_step List.length]. unfold in_range. zbool; rewrite E; reflexivity.
    + destruct (Z.ltb_spec c 1114112); [|lia].
      assert (E : c = (240 + c / 262144 - 240) * 262144 + (128 + (c / 4096) mod 64 - 128) * 4096
                      + (128 + (c / 64) mod 64 - 128) * 64 + (128 + c mod 64 - 128))
        by (Z.div_mod_to_equations; lia).
      assert (B0 : 240 <= 240 + c / 262144 <= 244) by (Z.div_mod_to_equations; lia).
      assert (B1 : 128 <= 128 + (c / 4096) mod 64 <= 191) by (Z.div_mod_to_equations; lia).
      assert (B2 : 128 <= 128 + (c / 64) mod 64 <= 191) by (Z.div_mod_to_equations; lia).
      assert (B3 : 128 <= 128 + c mod 64 <= 191) by (Z.div_mod_to_equations; lia).
      assert (L1 : 240 + c / 262144 = 240 -> 144 <= 128 + (c / 4096) mod 64)
        by (Z.div_mod_to_equations; lia).
      assert (L2 : 240 + c / 262144 = 244 -> 128 + (c / 4096) mod 64 <= 143)
        by (Z.div_mod_to_equations; lia).
      set (x0 := 240 + c / 262144) in *. set (x1 := 128 + (c / 4096) mod 64) in *.
      set (x2 := 128 + (c / 64) mod 64) in *. set (x3 := 128 + c mod 64) in *.
      clearbody x0 x1 x2 x3.
      injection He as <-.
      cbn [app utf8_step List.length]. unfold in_range. zbool; rewrite E; reflexivity.
Qed.

Lemma utf8_encode_char_nil (c : Z) : utf8_encode_char c <> Some [].
Proof.
  unfold utf8_encode_char.
  repeat match goal with |- context [if ?b then _ else _] => destruct b end; discriminate.
Qed.

Lemma utf8_encode_char_scalar (c : Z) : is_scalar c -> exists b, utf8_encode_char c = Some b.
Proof.
  intros [H1 H2]. unfold utf8_encode_char.
  destruct (Z.ltb_spec c 0); [lia|]. destruct (Z.ltb_spec c 128); [eauto|].
  destruct (Z.ltb_spec c 2048); [eauto|].
  destruct (Z.leb_spec 55296 c); destruct (Z.leb_spec c 57343); cbn [andb]; try lia;
    destruct (Z.ltb_spec c 65536); eauto; destruct (Z.ltb_spec c 1114112); eauto; lia.
Qed.

Lemma utf8_encode_scalar (s : list Z) : Forall is_scalar s -> exists b, utf8_encode s = Some b.
Proof.
  intros H. induction H as [|c s Hc Hs IH].
  - exists []. reflexivity.
  - cbn [utf8_encode].
    destruct (utf8_encode_char_scalar c Hc) as [bc ->]. destruct IH as [br ->]. eauto.
Qed.

Lemma utf8_decode_encode (mode : decode_errors) (s b : list Z) :
  Forall is_scalar s -> utf8_encode s = Some b -> utf8_decode mode b = Some s.
Proof.
  intros Hs. unfold utf8_decode.
  assert (G : forall f, (List.length b < f)%nat -> utf8_encode s = Some b ->
              utf8_decode_fuel f mode b = Some s).
  { revert b. induction Hs as [|c s Hc Hs IH]; intros b f Hf He.
    - injection He as <-. destruct f; [lia|]. reflexivity.
    - cbn [utf8_encode] in He.
      destruct (utf8_encode_char c) as [bc|] eqn:Ec; [|discriminate].
      destruct (utf8_encode s) as [br|] eqn:Er; [|discriminate].
      injection He as <-.
      destruct f as [|f]; [lia|].
      destruct bc as [|x bc']; [exfalso; exact (utf8_encode_char_nil c Ec)|].
      cbn [utf8_decode_fuel app].
      change (x :: bc' ++ br) with ((x :: bc') ++ br).
      rewrite (utf8_step_encode c (x :: bc') br Hc Ec).
      rewrite skipn_app, skipn_all, Nat.sub_diag. cbn [skipn app].
      rewrite length_app in Hf. cbn [List.length] in Hf.
      rewrite IH by (reflexivity || lia). reflexivity. }
  intros He. apply G; [lia | exact He].
Qed.

(** ** Publisher, consumer and endpoints *)

Lemma json_loads_message (m : list Z) :
  Forall is_scalar m ->
  json_loads (123 :: json_str (lit "message") ++ 58 :: 32 :: json_str m ++ [125])
  = Ok (PDict [(lit "message", PStr m)]).
Proof.
  intros Hm. apply json_loads_str_dict; [|exact Hm].
  change (lit "message") with [109; 101; 115; 115; 97; 103; 101].
  unfold is_scalar; repeat (apply Forall_cons; [lia|]); apply Forall_nil.
Qed.

Lemma json_message_ascii (m : list Z) :
  Forall is_ascii (123 :: json_str (lit "message") ++ 58 :: 32 :: json_str m ++ [125]).
Proof.
  constructor; [unfold is_ascii; lia|].
  apply Forall_app; split; [apply json_str_ascii|].
  constructor; [unfold is_ascii; lia|]. constructor; [unfold is_ascii; lia|].
  apply Forall_app; split; [apply json_str_ascii|].
  constructor; [unfold is_ascii; lia | constructor].
Qed.

Lemma deliver_carrier (c : option SpanContext) :
  exists hs, amqp_deliver (inject_carrier c) = Some hs
  /\ forall py_repr, _normalize_headers py_repr (Some hs) = Ok (inject_carrier c).
Proof.
  destruct c as [C|].
  - rewrite amqp_deliver_carrier. eexists; split; [reflexivity|]. intros; reflexivity.
  - exists []. split; reflexivity.
Qed.

Lemma amqp_wire_str_scalar (mx : option nat) (s b : list Z) :
  Forall is_scalar s -> utf8_encode s = Some b ->
  match mx with Some k => (List.length b <= k)%nat | None => True end ->
  amqp_wire_str mx s = Some (PStr s).
Proof.
  intros Hs Hb Hm. unfold amqp_wire_str. rewrite Hb.
  rewrite (utf8_decode_encode Strict_ s b Hs Hb).
  destruct mx as [k|]; [|reflexivity].
  destruct (Nat.ltb_spec k (List.length b)); [lia|reflexivity].
Qed.

Lemma dict_set_new {V} (k : list Z) (v : V) (d : list (list Z * V)) :
  ~ In k (map fst d) -> dict_set k v d = d ++ [(k, v)].
Proof.
  induction d as [|[k' v'] d IH]; intros Hn; [reflexivity|].
  cbn [dict_set]. cbn [map fst In] in Hn.
  destruct (list_Z_eqb k k') eqn:E.
  - apply list_Z_eqb_eq in E. subst. tauto.
  - rewrite IH by tauto. reflexivity.
Qed.

Lemma normalize_items_str (py_repr : PyVal -> list Z) (h acc : list (list Z * list Z)) :
  NoDup (map fst (acc ++ h)) ->
  normalize_items py_repr (map (fun kv => (PStr (fst kv), PStr (snd kv))) h) acc = Ok (acc ++ h).
Proof.
  revert acc. induction h as [|[k v] h IH]; intros acc Hnd.
  - rewrite app_nil_r. reflexivity.
  - cbn [map normalize_items fst snd rbind py_str].
    rewrite dict_set_new.
    + rewrite IH; [rewrite <- app_assoc; reflexivity|].
      rewrite <- app_assoc. exact Hnd.
    + rewrite map_app in Hnd. cbn [map fst] in Hnd.
      apply NoDup_remove_2 in Hnd. intros Hin. apply Hnd, in_or_app. left. exact Hin.
Qed.

Lemma normalize_items_raise (py_repr : PyVal -> list Z) (items : list (PyVal * PyVal))
    (acc : list (list Z * list Z)) :
  (forall e, normalize_items py_repr items acc = Raise e -> e = UnicodeDecodeError)
  /\ ((exists e, normalize_items py_repr items acc = Raise e)
      <-> exists k v, In (PBytes k, v) items /\ utf8_decode Strict_ k = None).
Proof.
  revert acc. induction items as [|[k v] r IH]; intros acc.
  - cbn. split; [discriminate|]. split; [intros [e He]; discriminate | intros (? & ? & [] & _)].
  - cbn [normalize_items]. destruct k as [| | | | |b| |];
      try (cbn [rbind]; match goal with |- context [normalize_items py_repr r ?a] =>
             destruct (IH a) as [IH1 IH2] end;
           split; [exact IH1|]; rewrite IH2; split;
           [intros (k & v' & Hin & Hk); exists k, v'; split; [right; exact Hin | exact Hk]
           |intros (k & v' & [Heq|Hin] & Hk); [discriminate|exists k, v'; tauto]]).
    destruct (utf8_decode Strict_ b) as [kb|] eqn:Eb.
    + cbn [rbind of_option]. match goal with |- context [normalize_items py_repr r ?a] =>
        destruct (IH a) as [IH1 IH2] end.
      split; [exact IH1|]. rewrite IH2. split.
      * intros (k & v' & Hin & Hk); exists k, v'; split; [right; exact Hin | exact Hk].
      * intros (k & v' & [Heq|Hin] & Hk); [injection Heq as -> ->; congruence|exists k, v'; tauto].
    + cbn [rbind of_option]. split; [intros e He; injection He as <-; reflexivity|].
      split; [intros _; exists b, v; split; [left; reflexivity | exact Eb]|].
      intros _. eexists; reflexivity.
Qed.

(** Case analysis of one run of the body of [on_message], after its
    headers are normalized. *)
Ltac worker_cases wenv body :=
  destruct (utf8_decode Strict_ body) as [text|] eqn:Ed;
  [destruct (json_loads text) as [payload|e1] eqn:Ej;
   [destruct (py_get payload (lit "message") (PStr [])) as [message|e2] eqn:Eg;
    [destruct (py_len message) as [n|e3] eqn:El;
     [httpx_run;
      destruct (worker_analyze_post wenv (PDict [(lit "text", message)])) as [r|x] eqn:Ep;
      [destruct ((200 <=? status_code r) && (status_code r <? 300)) eqn:Es;
       [destruct (json_loads_bytes (content r)) as [a|e4] eqn:Ea;
        [destruct (ack_fail wenv) as [xa|] eqn:Eack|]|]|]|]|]|]|];
  repeat match goal with y : ExtExc |- _ => destruct y end;
  simpl; try destruct (nack_fail wenv); simpl;
  repeat match goal with |- context [is_Exception ?e] => destruct (is_Exception e) end; simpl.

Section Extras.

Variable py_repr : PyVal -> list Z.
Variable idgen : nat -> Z * Z * bool.

(** X1: a message of Unicode scalar values that [publish_to_rabbitmq]
    publishes as [{"message": m}] comes back unchanged at the worker: the
    AMQP headers of the published message are delivered, and [on_message],
    run on those headers and the published body, posts [{"text": m}] to
    [/analyze] of the .NET service. *)
Theorem X1_message_reaches_analyze (env : ChatEnv) (wenv : WorkerEnv) (q m : list Z)
    (s s' : St) (tag : Z) ex rk body props :
  Forall is_scalar m ->
  In (EvBasicPublish ex rk body props)
     (snd (publish_to_rabbitmq py_repr env q (PDict [(lit "message", PStr m)]) s)) ->
  exists hs, amqp_deliver (bp_headers props) = Some hs
  /\ In (EvHttpPost (dotnet_url wenv) (lit "/analyze") (PDict [(lit "text", PStr m)]))
        (snd (on_message py_repr idgen wenv (Some hs) tag body s')).
Proof.
  intros Hm H. rewrite publish_run in H.
  apply publish_sync_event in H as (_ & _ & -> & js & Ej & Eb). cbn [bp_headers].
  rewrite json_dumps_str_dict in Ej.
  assert (Ejs : 123 :: json_str (lit "message") ++ 58 :: 32 :: json_str m ++ [125] = js)
    by congruence. clear Ej.
  pose proof (json_message_ascii m) as Ha. rewrite Ejs in Ha.
  pose proof (json_loads_message m Hm) as Hl. rewrite Ejs in Hl. clear Ejs.
  rewrite utf8_encode_ascii in Eb by exact Ha. injection Eb as <-.
  destruct (deliver_carrier (cur s)) as (hs & Hd & Hn).
  exists hs. split; [exact Hd|].
  unfold on_message, bind, lift. rewrite Hn. cbn beta iota zeta.
  unfold with_span. destruct (idgen (nid s')) as [[t sd] b].
  unfold try_except, bind, lift, emit, http_send, raise_for_status, response_json, ret, raise, of_option.
  rewrite utf8_decode_ascii by exact Ha. rewrite Hl.
  cbn [py_get dict_get]. rewrite list_Z_eqb_refl. cbn [py_len].
  httpx_run.
  destruct (worker_analyze_post wenv (PDict [(lit "text", PStr m)])) as [r|x].
  - destruct ((200 <=? status_code r) && (status_code r <? 300));
      [destruct (json_loads_bytes (content r)) as [a|e]; [destruct (ack_fail wenv) as [x|]|]|];
      simpl; try destruct (is_Exception _); try destruct (nack_fail wenv); simpl; auto.
    all: destruct x; simpl; auto.
  - destruct x; simpl; try destruct (nack_fail wenv); simpl; auto.
Qed.

(** X2: when no pika call fails, [publish_to_rabbitmq] of [{"message": m}]
    returns normally, leaves the state unchanged and performs exactly:
    connect, open a channel, declare the durable queue, publish the JSON body
    to the default exchange with content type [application/json], delivery
    mode 2 and the injected trace carrier, close the channel, close the
    connection. *)
Theorem X2_publish_message_never_fails_on_encoding (env : ChatEnv) (q m : list Z) (s : St) :
  (forall op, pika_fail env op = None) ->
  publish_to_rabbitmq py_repr env q (PDict [(lit "message", PStr m)]) s
  = (Ok tt, s,
     [EvConnect (rabbitmq_host env); EvChannelOpen; EvQueueDeclare q true;
      EvBasicPublish [] q (123 :: json_str (lit "message") ++ 58 :: 32 :: json_str m ++ [125])
        (mkProps (lit "application/json") 2 (inject_carrier (cur s)));
      EvChannelClose; EvConnectionClose]).
Proof.
  intros Hp. rewrite publish_run.
  unfold _publish_to_rabbitmq_sync, try_finally, pika_call, bind, emit, lift, ret, raise,
    of_option.
  rewrite !Hp, json_dumps_str_dict, utf8_encode_ascii by apply json_message_ascii.
  reflexivity.
Qed.

(** X3: in [_publish_to_rabbitmq_sync], a failed connect raises its
    error and does nothing else; once connected, the connection is closed
    exactly once, as the last action, whatever fails in between; the
    channel is closed only after a publish; and an error of
    [connection.close()] is what the call raises. *)
Theorem X3_publish_sync_closes_connection (env : ChatEnv) (q : list Z) (payload : PyVal)
    (hs : list (list Z * list Z)) (s : St) :
  let R := _publish_to_rabbitmq_sync py_repr env q payload hs s in
  (forall x, pika_fail env OpConnect = Some x ->
     R = (Raise (EExt x), s, [EvConnect (rabbitmq_host env)]))
  /\ (pika_fail env OpConnect = None ->
      exists w, snd R = EvConnect (rabbitmq_host env) :: w ++ [EvConnectionClose]
      /\ ~ In EvConnectionClose w
      /\ (In EvChannelClose w -> exists b p, In (EvBasicPublish [] q b p) w)
      /\ (forall x, pika_fail env OpConnectionClose = Some x -> fst (fst R) = Raise (EExt x))).
Proof.
  intros R. unfold R. split.
  - intros x Hx. unfold _publish_to_rabbitmq_sync, pika_call, bind, emit, raise.
    rewrite Hx. reflexivity.
  - intros Hc.
    unfold _publish_to_rabbitmq_sync, try_finally, pika_call, bind, emit, lift, ret, raise,
      of_option.
    rewrite Hc.
    destruct (pika_fail env OpConnectionClose) as [xc|] eqn:Ecc;
    destruct (pika_fail env OpChannel); destruct (pika_fail env OpQueueDeclare);
    destruct (json_dumps py_repr payload) as [js|ej];
    try destruct (utf8_encode js) as [bd|];
    destruct (pika_fail env OpBasicPublish); destruct (pika_fail env OpChannelClose); simpl.
    all: match goal with |- exists w, ?L = _ :: w ++ [_] /\ _ =>
           exists (removelast (tl L)); split; [reflexivity|] end.
    all: simpl; intuition (try congruence; eauto 6).
Qed.



(** X4: string headers whose keys and values are Unicode scalar values,
    with distinct keys of at most 255 UTF-8 bytes, survive AMQP delivery and
    [_normalize_headers] unchanged. *)
Theorem X4_header_carrier_roundtrip (h : list (list Z * list Z)) :
  Forall (fun kv => Forall is_scalar (fst kv) /\ Forall is_scalar (snd kv)
                    /\ exists b, utf8_encode (fst kv) = Some b /\ (List.length b <= 255)%nat) h ->
  NoDup (map fst h) ->
  exists hs, amqp_deliver h = Some hs /\ _normalize_headers py_repr (Some hs) = Ok h.
Proof.
  intros Hh Hnd.
  assert (Hd : amqp_deliver h = Some (map (fun kv => (PStr (fst kv), PStr (snd kv))) h)).
  { induction Hh as [|[k v] h (Hk & Hv & b & Hb & Hl) Hh IH]; [reflexivity|].
    cbn [amqp_deliver map fst snd] in *.
    destruct (utf8_encode_scalar v Hv) as [bv Hbv].
    rewrite (amqp_wire_str_scalar (Some 255%nat) k b Hk Hb Hl).
    rewrite (amqp_wire_str_scalar None v bv Hv Hbv I).
    rewrite IH by (inversion Hnd; assumption). reflexivity. }
  eexists; split; [exact Hd|].
  destruct h as [|kv h]; [reflexivity|].
  unfold _normalize_headers. cbn [map].
  change (normalize_items py_repr (map (fun kv => (PStr (fst kv), PStr (snd kv))) (kv :: h)) []
          = Ok ([] ++ kv :: h)).
  apply normalize_items_str. exact Hnd.
Qed.

(** X5: [_normalize_headers] raises only [UnicodeDecodeError], and it
    raises exactly when some header key is a byte string that is not valid
    UTF-8; values are decoded ignoring errors and never make it raise. *)
Theorem X5_normalize_headers_raises_only_on_bad_key (hs : option (list (PyVal * PyVal))) :
  (forall e, _normalize_headers py_repr hs = Raise e -> e = UnicodeDecodeError)
  /\ ((exists e, _normalize_headers py_repr hs = Raise e)
      <-> exists l k v, hs = Some l /\ In (PBytes k, v) l /\ utf8_decode Strict_ k = None).
Proof.
  destruct hs as [[|kv l]|].
  - cbn. split; [discriminate|].
    split; [intros [e He]; discriminate | intros (l & k & v & Hl & Hin & _); injection Hl as <-; destruct Hin].
  - unfold _normalize_headers.
    destruct (normalize_items_raise py_repr (kv :: l) []) as [H1 H2].
    split; [exact H1|]. rewrite H2. split.
    + intros (k & v & Hin & Hk). exists (kv :: l), k, v. auto.
    + intros (l' & k & v & Hl & Hin & Hk). injection Hl as <-. eauto.
  - cbn. split; [discriminate|].
    split; [intros [e He]; discriminate | intros (l & k & v & Hl & _); discriminate].
Qed.

Lemma on_message_unfold (wenv : WorkerEnv) (h : option (list (PyVal * PyVal))) (tag : Z)
    (body : list Z) (s : St) (hdrs : list (list Z * list Z)) :
  _normalize_headers py_repr h = Ok hdrs ->
  on_message py_repr idgen wenv h tag body s
  = with_span idgen "rabbitmq.process" CONSUMER (Some (extract hdrs))
      (try_except
         (text <- lift (of_option (utf8_decode Strict_ body) UnicodeDecodeError) ;;
          payload <- lift (json_loads text) ;;
          message <- lift (py_get payload (lit "message") (PStr [])) ;;
          _ <- lift (py_len message) ;;
          resp <- httpx_post idgen (dotnet_url wenv) (lit "/analyze")
                    (PDict [(lit "text", message)])
                    (worker_analyze_post wenv (PDict [(lit "text", message)])) ;;
          raise_for_status resp ;;
          _ <- response_json resp ;;
          emit (EvAck tag) ;;
          match ack_fail wenv with Some x => raise (EExt x) | None => ret tt end)
         is_Exception
         (fun _ =>
            emit (EvNack tag false) ;;
            match nack_fail wenv with Some x => raise (EExt x) | None => ret tt end)) s.
Proof.
  intros Hn. unfold on_message, bind at 1, lift at 1. rewrite Hn. cbn beta iota zeta.
  destruct (with_span _ _ _ _ _ _) as [[r s2] w]. reflexivity.
Qed.

(** X6: when the headers normalise, [on_message] runs inside exactly one
    CONSUMER span [rabbitmq.process]: it opens first and closes last; the
    only span opened inside it is at most one CLIENT span [POST], the one
    the httpx instrumentation opens around the analyze request; the
    current span is restored afterwards; and the consumer span's trace id
    is the one of the propagated context when that context is valid, a
    fresh one otherwise (the caller's current span plays no part). *)
Theorem X6_consumer_span (wenv : WorkerEnv) (h : option (list (PyVal * PyVal)))
    (hdrs : list (list Z * list Z)) (tag : Z) (body : list Z) (s : St) :
  _normalize_headers py_repr h = Ok hdrs ->
  let R := on_message py_repr idgen wenv h tag body s in
  let '(tid, sid, _) := idgen (nid s) in
  exists ctx w,
    snd R = EvSpanStart "rabbitmq.process" CONSUMER ctx :: w ++ [EvSpanEnd ctx]
    /\ (forall n k c, In (EvSpanStart n k c) w -> n = "POST"%string /\ k = CLIENT)
    /\ (count_span_starts w <= 1)%nat
    /\ cur (snd (fst R)) = cur s
    /\ span_id ctx = sid
    /\ trace_id ctx = match extract hdrs with
                      | Some p => if span_is_valid p then trace_id p else tid
                      | None => tid
                      end.
Proof.
  intros Hn. rewrite (on_message_unfold wenv h tag body s hdrs Hn).
  unfold with_span. destruct (idgen (nid s)) as [[t sd] b].
  unfold try_except, bind, lift, emit, http_send, raise_for_status, response_json, ret, raise,
    of_option.
  worker_cases wenv body.
  all: match goal with |- exists c w, (EvSpanStart _ _ ?C :: ?rest) = _ /\ _ =>
         exists C, (removelast rest); split; [reflexivity|] end.
  all: split; [intros n0 k0 c0; simpl; intuition congruence|].
  all: split; [unfold count_span_starts; simpl; lia|]; auto.
Qed.

(** X7: every [basic_nack] of [on_message] is for the delivery's own tag
    with [requeue=False]; every [basic_ack] is for its own tag and happens
    only after the body decoded, parsed as JSON, the analyze call answered
    with a 2xx status and its body parsed as JSON. *)
Theorem X7_ack_nack_discipline (wenv : WorkerEnv) (h : option (list (PyVal * PyVal)))
    (tag : Z) (body : list Z) (s : St) :
  let w := snd (on_message py_repr idgen wenv h tag body s) in
  (forall t rq, In (EvNack t rq) w -> t = tag /\ rq = false)
  /\ (forall t, In (EvAck t) w ->
        t = tag
        /\ exists text payload message r a,
             utf8_decode Strict_ body = Some text /\ json_loads text = Ok payload
             /\ py_get payload (lit "message") (PStr []) = Ok message
             /\ worker_analyze_post wenv (PDict [(lit "text", message)]) = HResp r
             /\ 200 <= status_code r < 300
             /\ json_loads_bytes (content r) = Ok a).
Proof.
  intros w. subst w.
  destruct (_normalize_headers py_repr h) as [hdrs|en] eqn:Hn.
  2: { unfold on_message, bind, lift. rewrite Hn. simpl. split; intros; contradiction. }
  rewrite (on_message_unfold wenv h tag body s hdrs Hn).
  unfold with_span. destruct (idgen (nid s)) as [[t0 sd] b].
  unfold try_except, bind, lift, emit, http_send, raise_for_status, response_json, ret, raise,
    of_option.
  worker_cases wenv body.
  all: split; [intros t rq Hin; simpl in Hin; intuition congruence|].
  all: intros t Hin; simpl in Hin;
       repeat (destruct Hin as [Hin|Hin]; [try discriminate|]); try contradiction.
  all: injection Hin as <-; split; [reflexivity|].
  all: apply andb_true_iff in Es as [Es1 Es2]; apply Z.leb_le in Es1; apply Z.ltb_lt in Es2.
  all: exists text, payload, message, r, a; repeat split; auto; lia.
Qed.

(** X8: a body that is not UTF-8, not JSON, not a JSON object with a
    gettable [message], or whose [message] has no length, is nacked without
    requeue and no HTTP call is made: the trace is the consumer span around
    the single nack. *)
Theorem X8_unreadable_body_nack_without_analyze (wenv : WorkerEnv)
    (h : option (list (PyVal * PyVal))) (hdrs : list (list Z * list Z)) (tag : Z)
    (body : list Z) (s : St) :
  _normalize_headers py_repr h = Ok hdrs ->
  (utf8_decode Strict_ body = None
   \/ (exists text e, utf8_decode Strict_ body = Some text /\ json_loads text = Raise e)
   \/ (exists text payload e, utf8_decode Strict_ body = Some text
        /\ json_loads text = Ok payload /\ py_get payload (lit "message") (PStr []) = Raise e)
   \/ (exists text payload message e, utf8_decode Strict_ body = Some text
        /\ json_loads text = Ok payload /\ py_get payload (lit "message") (PStr []) = Ok message
        /\ py_len message = Raise e)) ->
  exists ctx,
    on_message py_repr idgen wenv h tag body s
    = (match nack_fail wenv with Some x => Raise (EExt x) | None => Ok tt end,
       mkSt (cur s) (S (nid s)),
       [EvSpanStart "rabbitmq.process" CONSUMER ctx; EvNack tag false; EvSpanEnd ctx]).
Proof.
  intros Hn Hb. rewrite (on_message_unfold wenv h tag body s hdrs Hn).
  unfold with_span. destruct (idgen (nid s)) as [[t0 sd] b].
  unfold try_except, bind, lift, emit, http_send, raise_for_status, response_json, ret, raise,
    of_option.
  destruct Hb as [Hd|[(text & e & Hd & Hj)|[(text & payload & e & Hd & Hj & Hg)
                  |(text & payload & message & e & Hd & Hj & Hg & Hl)]]];
    rewrite Hd; simpl; try rewrite Hj; simpl; try rewrite Hg; simpl; try rewrite Hl; simpl.
  - destruct (nack_fail wenv); eexists; reflexivity.
  - rewrite (json_loads_exc _ _ Hj). destruct (nack_fail wenv); eexists; reflexivity.
  - rewrite (py_get_exc _ _ _ _ Hg). destruct (nack_fail wenv); eexists; reflexivity.
  - rewrite (py_len_exc _ _ Hl). destruct (nack_fail wenv); eexists; reflexivity.
Qed.



(** X11: [chat_endpoint] restores the current span, and its trace starts
    with the PRODUCER span [publish_to_rabbitmq], inside which every publish
    carries that span's context in its headers; it is followed either by
    nothing (the publish raised) or by the span [call_nlp_service] and
    nothing else. Both spans continue the trace of a valid current span. *)
Theorem X11_chat_spans (env : ChatEnv) (message : list Z) (s : St) :
  let R := chat_endpoint py_repr idgen env message s in
  cur (snd (fst R)) = cur s
  /\ exists c1 w1 rest,
       snd R = EvSpanStart "publish_to_rabbitmq" PRODUCER c1 :: w1 ++ EvSpanEnd c1 :: rest
       /\ (forall ex rk b p, In (EvBasicPublish ex rk b p) w1 ->
             bp_headers p = inject_carrier (Some c1))
       /\ (forall p, cur s = Some p -> span_is_valid p = true -> trace_id c1 = trace_id p)
       /\ (rest = []
           \/ exists c2 w2, rest = EvSpanStart "call_nlp_service" INTERNAL c2 :: w2 ++ [EvSpanEnd c2]
              /\ (forall p, cur s = Some p -> span_is_valid p = true -> trace_id c2 = trace_id p)).
Proof.
  cbv zeta.
  destruct (chat_endpoint py_repr idgen env message s) as [[r st] w] eqn:ER.
  cbn [fst snd]. revert ER.
  unfold chat_endpoint. unfold bind at 1. unfold with_span at 1.
  destruct (idgen (nid s)) as [[t1 sd1] b1].
  rewrite publish_run. cbn [cur].
  match goal with |- context [_publish_to_rabbitmq_sync py_repr env ?q ?pl (inject_carrier (Some ?c)) ?st] =>
    assert (Hh : forall ex rk b p,
               In (EvBasicPublish ex rk b p) (snd (_publish_to_rabbitmq_sync py_repr env q pl (inject_carrier (Some c)) st)) ->
               bp_headers p = inject_carrier (Some c))
      by (intros ex rk b p Hin; apply publish_sync_event in Hin as (_ & _ & -> & _); reflexivity);
    destruct (_publish_to_rabbitmq_sync py_repr env q pl (inject_carrier (Some c)) st) as [[r1 s1] w1]
  end.
  cbn [snd] in Hh.
  destruct r1 as [u|e].
  - unfold bind at 1. unfold with_span at 1.
    cbn [cur nid]. destruct (idgen (nid s1)) as [[t2 sd2] b2].
    match goal with |- context [try_except ?m ?c ?hd ?st] =>
      destruct (try_except m c hd st) as [[r2 s2] w2] end.
    destruct r2 as [v|e2]; cbn [ret snd fst cur]; intros [= <- <- <-];
    (split; [reflexivity|]);
    match goal with
    | |- exists c1 w1 rest,
           (EvSpanStart _ _ ?C :: (?W ++ _) ++ EvSpanStart _ _ ?C2 :: ?R2) = _ /\ _ =>
        exists C, W, (EvSpanStart "call_nlp_service" INTERNAL C2 :: R2)
    end;
    (split; [rewrite <- app_assoc; reflexivity|]);
    (split; [exact Hh|]);
    (split; [intros p Hp Hv; rewrite Hp, Hv; reflexivity|]);
    right;
    match goal with |- exists c2 w, EvSpanStart _ _ ?C2 :: _ = _ /\ _ => exists C2, w2 end;
    (split; [rewrite ?app_nil_r; reflexivity|]);
    intros p Hp Hv; rewrite Hp, Hv; reflexivity.
  - cbn [snd fst cur]. intros [= <- <- <-]. split; [reflexivity|].
    match goal with
    | |- exists c1 w1 rest, (EvSpanStart _ _ ?C :: ?W ++ _) = _ /\ _ =>
        exists C, W, []
    end.
    split; [reflexivity|].
    split; [exact Hh|]. split; [intros p Hp Hv; rewrite Hp, Hv; reflexivity|]. left; reflexivity.
Qed.



End Extras.
Lemma X1_witness :
  Forall is_scalar (lit "hi")
  /\ In (EvBasicPublish [] (lit "chat-jobs")
          (123 :: json_str (lit "message") ++ 58 :: 32 :: json_str (lit "hi") ++ [125])
          (mkProps (lit "application/json") 2 (inject_carrier (Some (mkCtx 100 7 1)))))
        (snd (publish_to_rabbitmq sample_repr
                (sample_chat_env no_fail (HResp (mkResponse 200 (lit "{}"))))
                (lit "chat-jobs") (PDict [(lit "message", PStr (lit "hi"))])
                (mkSt (Some (mkCtx 100 7 1)) 1)))
  /\ exists hs, amqp_deliver (inject_carrier (Some (mkCtx 100 7 1))) = Some hs
     /\ In (EvHttpPost (lit "http://localhost:8080") (lit "/analyze")
              (PDict [(lit "text", PStr (lit "hi"))]))
           (snd (on_message sample_repr sample_idgen
                   (sample_worker_env (HResp (mkResponse 200 (lit "{}"))))
                   (Some hs) 5
                   (123 :: json_str (lit "message") ++ 58 :: 32 :: json_str (lit "hi") ++ [125])
                   (mkSt None 0))).
Proof.
  assert (Hm : Forall is_scalar (lit "hi"))
    by (change (lit "hi") with [104; 105]; repeat constructor; unfold is_scalar; lia).
  assert (Hin : In (EvBasicPublish [] (lit "chat-jobs")
          (123 :: json_str (lit "message") ++ 58 :: 32 :: json_str (lit "hi") ++ [125])
          (mkProps (lit "application/json") 2 (inject_carrier (Some (mkCtx 100 7 1)))))
        (snd (publish_to_rabbitmq sample_repr
                (sample_chat_env no_fail (HResp (mkResponse 200 (lit "{}"))))
                (lit "chat-jobs") (PDict [(lit "message", PStr (lit "hi"))])
                (mkSt (Some (mkCtx 100 7 1)) 1)))) by (vm_compute; tauto).
  split; [exact Hm|]. split; [exact Hin|].
  exact (X1_message_reaches_analyze sample_repr sample_idgen
           (sample_chat_env no_fail (HResp (mkResponse 200 (lit "{}"))))
           (sample_worker_env (HResp (mkResponse 200 (lit "{}"))))
           (lit "chat-jobs") (lit "hi") (mkSt (Some (mkCtx 100 7 1)) 1) (mkSt None 0) 5
           [] (lit "chat-jobs")
           (123 :: json_str (lit "message") ++ 58 :: 32 :: json_str (lit "hi") ++ [125])
           (mkProps (lit "application/json") 2 (inject_carrier (Some (mkCtx 100 7 1))))
           Hm Hin).
Defined.

Lemma X2_witness :
  (forall op, pika_fail (sample_chat_env no_fail (HResp (mkResponse 200 (lit "{}")))) op = None)
  /\ publish_to_rabbitmq sample_repr (sample_chat_env no_fail (HResp (mkResponse 200 (lit "{}"))))
       (lit "chat-jobs") (PDict [(lit "message", PStr (lit "hi"))]) (mkSt None 0)
     = (Ok tt, mkSt None 0,
        [EvConnect (lit "localhost"); EvChannelOpen; EvQueueDeclare (lit "chat-jobs") true;
         EvBasicPublish [] (lit "chat-jobs")
           (123 :: json_str (lit "message") ++ 58 :: 32 :: json_str (lit "hi") ++ [125])
           (mkProps (lit "application/json") 2 (inject_carrier None));
         EvChannelClose; EvConnectionClose]).
Proof.
  split; [intros op; reflexivity|].
  apply (X2_publish_message_never_fails_on_encoding sample_repr
           (sample_chat_env no_fail (HResp (mkResponse 200 (lit "{}"))))
           (lit "chat-jobs") (lit "hi") (mkSt None 0)).
  intros op; reflexivity.
Defined.

Lemma X4_witness :
  exists hs, amqp_deliver [(lit "traceparent", lit "x")] = Some hs
  /\ _normalize_headers sample_repr (Some hs) = Ok [(lit "traceparent", lit "x")].
Proof.
  apply (X4_header_carrier_roundtrip sample_repr [(lit "traceparent", lit "x")]).
  - change (lit "traceparent") with [116; 114; 97; 99; 101; 112; 97; 114; 101; 110; 116].
    change (lit "x") with [120].
    repeat constructor; try (unfold is_scalar; lia).
    exists [116; 114; 97; 99; 101; 112; 97; 114; 101; 110; 116].
    split; [vm_compute; reflexivity | simpl; lia].
  - simpl. constructor; [intros []|constructor].
Defined.

Lemma X6_witness :
  _normalize_headers sample_repr None = Ok []
  /\ exists ctx w,
       snd (on_message sample_repr sample_idgen
              (sample_worker_env (HResp (mkResponse 200 (lit "{}")))) None 1 (lit "{}")
              (mkSt (Some (mkCtx 100 7 1)) 3))
       = EvSpanStart "rabbitmq.process" CONSUMER ctx :: w ++ [EvSpanEnd ctx]
       /\ span_id ctx = 4 /\ trace_id ctx = 4.
Proof.
  assert (Hn : _normalize_headers sample_repr None = Ok []) by reflexivity.
  split; [exact Hn|].
  pose proof (X6_consumer_span sample_repr sample_idgen
                (sample_worker_env (HResp (mkResponse 200 (lit "{}")))) None [] 1 (lit "{}")
                (mkSt (Some (mkCtx 100 7 1)) 3) Hn) as H.
  simpl in H. destruct H as (ctx & w & H1 & _ & _ & _ & H5 & H6).
  exists ctx, w. auto.
Defined.

Lemma X8_witness :
  _normalize_headers sample_repr None = Ok []
  /\ utf8_decode Strict_ [255] = None
  /\ exists ctx,
       on_message sample_repr sample_idgen
         (sample_worker_env (HResp (mkResponse 200 (lit "{}")))) None 1 [255] (mkSt None 0)
       = (Ok tt, mkSt None 1,
          [EvSpanStart "rabbitmq.process" CONSUMER ctx; EvNack 1 false; EvSpanEnd ctx]).
Proof.
  assert (Hn : _normalize_headers sample_repr None = Ok []) by reflexivity.
  assert (Hd : utf8_decode Strict_ [255] = None) by (vm_compute; reflexivity).
  split; [exact Hn|]. split; [exact Hd|].
  exact (X8_unreadable_body_nack_without_analyze sample_repr sample_idgen
           (sample_worker_env (HResp (mkResponse 200 (lit "{}")))) None [] 1 [255]
           (mkSt None 0) Hn (or_introl Hd)).
Defined.

